(** * Annif: evaluation metrics and the backend registry

    A shallow embedding of [annif/eval.py] and [annif/backend/__init__.py],
    followed by the properties proved about them.

    Conventions of the embedding.
    - A subject (a URI or a label) is a [string].
    - A Python [int] is a [Z]; a Python [float] (and a numpy float) is a
      real number [R]: rounding is not modelled, so every statement about a
      float-valued metric is a statement about the exact value the code's
      formula denotes.
    - A Python [set] of subjects is a [gset string].  When a set is handed
      to the metric library it is iterated, measured with [len] or asked
      for membership only, so it crosses that boundary as the list of its
      elements.
    - A function that can raise returns a [result]: [Ok v] or [Raise e]. *)

From Stdlib Require Import Reals Lra Lia ZArith.
From stdpp Require Import base gmap sets list strings sorting.

Open Scope R_scope.

(** ** Exceptions and results *)

Inductive exn : Type :=
| ValueError (msg : string)
| ImportError (name : string)
| StatisticsError (msg : string).

Inductive result (A : Type) : Type :=
| Ok (a : A)
| Raise (e : exn).
Arguments Ok {A} a.
Arguments Raise {A} e.

#[global] Instance result_ret : MRet result := λ A a, Ok a.
#[global] Instance result_bind : MBind result := λ A B f m,
  match m with
  | Ok a => f a
  | Raise e => Raise e
  end.

#[global] Instance result_fmap : FMap result := λ A B f m,
  match m with
  | Ok a => Ok (f a)
  | Raise e => Raise e
  end.

(** ** Python and numpy primitives used by the source *)

(** [l[:at_k]] for an integer [at_k]: a negative bound counts from the end. *)
Definition slice_to {A} (at_k : Z) (l : list A) : list A :=
  if (0 <=? at_k)%Z then take (Z.to_nat at_k) l
  else take (length l - Z.to_nat (- at_k)) l.

(** [int(b)] *)
Definition int_of_bool (b : bool) : Z := if b then 1%Z else 0%Z.

(** [numpy.arange(lo, hi)] *)
Definition arange (lo hi : Z) : list Z :=
  (λ i, (lo + Z.of_nat i)%Z) <$> seq 0 (Z.to_nat (hi - lo)).

(** [numpy.log2] *)
Definition log2 (x : R) : R := ln x / ln 2.

(** [numpy.sum] of a one-dimensional array *)
Definition np_sum (xs : list R) : R := foldr Rplus 0 xs.

(** [statistics.mean]: raises on an empty sequence. *)
Definition mean (xs : list R) : result R :=
  match xs with
  | [] => Raise (StatisticsError "mean requires at least one data point")
  | _ => Ok (np_sum xs / INR (length xs))
  end.

(** [sorted] on strings (code-point order). *)
Definition str_le (a b : string) : Prop := String.leb a b = true.
#[global] Instance str_le_dec a b : Decision (str_le a b).
Proof. unfold str_le. apply _. Defined.

Definition sorted_strings (l : list string) : list string := merge_sort str_le l.

(** ** The multi-label encoding and the sample-averaged scores

    Modelled from the spec: scikit-learn's [MultiLabelBinarizer] and its
    [precision_score], [recall_score] and [f1_score] with
    [average='samples'] are not part of the repository.  The encoding has
    one binary column per distinct label seen in the fitted collections and
    one row per document; a score is computed per document,
    [|pred ∩ gold| / |pred|] for precision and [|pred ∩ gold| / |gold|] for
    recall, [0] when the denominator is [0], and averaged arithmetically
    over the documents.  The average over no document at all is not
    described and no caller in [evaluate] requests it. *)

Definition mlb_fit (y : list (list string)) : list string :=
  sorted_strings (elements (list_to_set (mjoin y) : gset string)).

Definition mlb_transform (classes : list string) (y : list (list string))
  : list (list bool) :=
  (λ labels, (λ c, bool_decide (c ∈ labels)) <$> classes) <$> y.

Definition count_true (row : list bool) : nat := length (filter Is_true row).

Definition ratio (num den : nat) : R :=
  if decide (den = 0%nat) then 0 else INR num / INR den.

Definition sample_precision (t p : list bool) : R :=
  ratio (count_true (zip_with andb t p)) (count_true p).

Definition sample_recall (t p : list bool) : R :=
  ratio (count_true (zip_with andb t p)) (count_true t).

Definition sample_f1 (t p : list bool) : R :=
  ratio (2 * count_true (zip_with andb t p)) (count_true t + count_true p).

Definition samples_average (per_sample : list bool → list bool → R)
    (y_true y_pred : list (list bool)) : R :=
  let scores := zip_with per_sample y_true y_pred in
  np_sum scores / INR (length scores).

Definition precision_score := samples_average sample_precision.
Definition recall_score := samples_average sample_recall.
Definition f1_score := samples_average sample_f1.

(** ** annif/eval.py *)

Definition sklearn_metric_score (selected relevant : list (list string))
    (metric_fn : list (list bool) → list (list bool) → R) : R :=
  let classes := mlb_fit (relevant ++ selected) in
  let y_true := mlb_transform classes relevant in
  let y_pred := mlb_transform classes selected in
  metric_fn y_true y_pred.

Definition precision (selected relevant : list (list string))
    (at_k : option Z) : R :=
  let selected :=
    match at_k with
    | Some k => (λ subjs, slice_to k subjs) <$> selected
    | None => selected
    end in
  sklearn_metric_score selected relevant precision_score.

Definition recall (selected relevant : list (list string)) : R :=
  sklearn_metric_score selected relevant recall_score.

Definition f_measure (selected relevant : list (list string)) : R :=
  sklearn_metric_score selected relevant f1_score.

(** [zip(selected, relevant)] stops at the shorter argument. *)
Definition true_positives (selected relevant : list (list string)) : Z :=
  foldl (λ count '(ssubj, rsubj),
           let sel : gset string := list_to_set ssubj in
           let rel : gset string := list_to_set rsubj in
           (count + Z.of_nat (size (sel ∩ rel)))%Z)
        0%Z (zip selected relevant).

Definition false_positives (selected relevant : list (list string)) : Z :=
  foldl (λ count '(ssubj, rsubj),
           let sel : gset string := list_to_set ssubj in
           let rel : gset string := list_to_set rsubj in
           (count + Z.of_nat (size (sel ∖ rel)))%Z)
        0%Z (zip selected relevant).

Definition false_negatives (selected relevant : list (list string)) : Z :=
  foldl (λ count '(ssubj, rsubj),
           let sel : gset string := list_to_set ssubj in
           let rel : gset string := list_to_set rsubj in
           (count + Z.of_nat (size (rel ∖ sel)))%Z)
        0%Z (zip selected relevant).

Definition dcg (selected relevant : list string) (at_k : Z) : R :=
  if decide (length selected = 0%nat ∨ length relevant = 0%nat) then 0
  else
    let scores :=
      (λ item, int_of_bool (bool_decide (item ∈ relevant)))
        <$> slice_to at_k selected in
    let weights :=
      (λ n, log2 (IZR n))
        <$> arange 2 (Z.of_nat (length scores) + 2) in
    np_sum (zip_with Rdiv (IZR <$> scores) weights).

(** The body of the loop of [normalized_dcg]: the score appended for one
    document. *)
Definition ndcg_doc (at_k : Z) (ssubj rsubj : list string) : R :=
  let dcg_val := dcg ssubj rsubj at_k in
  let dcg_max := dcg rsubj rsubj at_k in
  if Req_dec_T dcg_max 0 then 0 else dcg_val / dcg_max.

Definition normalized_dcg (selected relevant : list (list string))
    (at_k : Z) : result R :=
  let scores :=
    foldl (λ scores '(ssubj, rsubj), scores ++ [ndcg_doc at_k ssubj rsubj])
          [] (zip selected relevant) in
  mean scores.

(** A metric returns an [int] (the counts) or a [float]. *)
Inductive score : Type :=
| SInt (n : Z)
| SFloat (x : R).

(** [collections.OrderedDict]: keys in insertion order; assigning to a key
    that is present replaces its value in place. *)
Definition report : Type := list (string * score).

Fixpoint od_set (key : string) (v : score) (d : report) : report :=
  match d with
  | [] => [(key, v)]
  | (k, w) :: d' =>
      if decide (k = key) then (k, v) :: d' else (k, w) :: od_set key v d'
  end.

Definition metric : Type :=
  list (list string) → list (list string) → result score.

Definition metrics : list (string * metric) :=
  [ ("Precision", λ s r, Ok (SFloat (precision s r None)));
    ("Recall", λ s r, Ok (SFloat (recall s r)));
    ("F-measure", λ s r, Ok (SFloat (f_measure s r)));
    ("NDCG@5", λ s r, SFloat <$> normalized_dcg s r 5);
    ("NDCG@10", λ s r, SFloat <$> normalized_dcg s r 10);
    ("Precision@1", λ s r, Ok (SFloat (precision s r (Some 1%Z))));
    ("Precision@3", λ s r, Ok (SFloat (precision s r (Some 3%Z))));
    ("Precision@5", λ s r, Ok (SFloat (precision s r (Some 5%Z))));
    ("True positives", λ s r, Ok (SInt (true_positives s r)));
    ("False positives", λ s r, Ok (SInt (false_positives s r)));
    ("False negatives", λ s r, Ok (SInt (false_negatives s r))) ].

(** The unpacking of the transposed samples into [hits, gold_subjects]:
    transposing a non-empty list of pairs with [zip] gives two tuples; for
    an empty list [zip] yields nothing and the unpacking raises. *)
Definition unpack_zip_star {A B} (samples : list (A * B))
  : result (list A * list B) :=
  match samples with
  | [] => Raise (ValueError "not enough values to unpack (expected 2, got 0)")
  | _ => Ok (samples.*1, samples.*2)
  end.

Definition evaluate (samples : list (list string * list string))
  : result report :=
  foldl (λ (acc : result report) '(metric_name, metric_fn),
           results ← acc;
           '(hits, gold_subjects) ← unpack_zip_star samples;
           v ← (metric_fn : metric) hits gold_subjects;
           mret (od_set metric_name v results))
        (Ok []) metrics.

(** The objects the evaluation consumes; their classes are declared
    elsewhere in Annif, only the attributes read here are modelled. *)
Record Hit : Type := mkHit { uri : string; label : string }.

Record SubjectSet : Type := mkSubjectSet {
  has_uris : bool;
  subject_uris : gset string;
  subject_labels : gset string
}.

Definition Sample : Type := (list Hit * SubjectSet)%type.

Definition transform_sample (sample : Sample) : list string * list string :=
  let '(hits, gold_subjects) := sample in
  if has_uris gold_subjects then
    let selected := uri <$> hits in
    let gold_set := subject_uris gold_subjects in
    (selected, elements gold_set)
  else
    let selected := label <$> hits in
    let gold_set := subject_labels gold_subjects in
    (selected, elements gold_set).

Module EvaluationBatch.

Record t : Type := mk { _samples : list Sample }.

Definition __init__ : t := {| _samples := [] |}.

(* [results] comes first: in its body [evaluate] is the function of the
   module, not the method below. *)
Definition results (self : t) : result report :=
  let transformed_samples := transform_sample <$> _samples self in
  evaluate transformed_samples.

Definition evaluate (self : t) (hits : list Hit) (gold_subjects : SubjectSet)
  : t :=
  {| _samples := _samples self ++ [(hits, gold_subjects)] |}.

End EvaluationBatch.

(** ** annif/backend/__init__.py *)

Module Backend.

(** The backend classes the loaders return. *)
Inductive AnnifBackend : Type :=
| DummyBackend | EnsembleBackend | FastTextBackend | HTTPBackend
| MLLMBackend | NNEnsembleBackend | OmikujiBackend | PAVBackend
| StwfsaBackend | SVCBackend | TFIDFBackend | YakeBackend
| MiniLmV2Backend | XlmRobertaBackend | MDeBertaBackend | EhriBertBackend
| MistralBackend.

(** The installation: what [from . import name] does for each submodule
    of the package, either succeeding or raising. *)
Definition installation : Type := string → result unit.

Section Loaders.
Variable imp : installation.

(** [try: body  except ImportError: handler] *)
Definition except_ImportError {A} (body handler : result A) : result A :=
  match body with
  | Raise (ImportError _) => handler
  | r => r
  end.

Definition _dummy : result AnnifBackend :=
  imp "dummy" ;; mret DummyBackend.

Definition _ensemble : result AnnifBackend :=
  imp "ensemble" ;; mret EnsembleBackend.

Definition _fasttext : result AnnifBackend :=
  except_ImportError
    (imp "fasttext" ;; mret FastTextBackend)
    (Raise (ValueError
              "fastText not available, cannot use fasttext backend")).

Definition _http : result AnnifBackend :=
  imp "http" ;; mret HTTPBackend.

Definition _mllm : result AnnifBackend :=
  imp "mllm" ;; mret MLLMBackend.

Definition _nn_ensemble : result AnnifBackend :=
  except_ImportError
    (imp "nn_ensemble" ;; mret NNEnsembleBackend)
    (Raise (ValueError
              ("Keras and TensorFlow not available, cannot use "
               +:+ "nn_ensemble backend"))).

Definition _omikuji : result AnnifBackend :=
  except_ImportError
    (imp "omikuji" ;; mret OmikujiBackend)
    (Raise (ValueError
              "Omikuji not available, cannot use omikuji backend")).

Definition _pav : result AnnifBackend :=
  imp "pav" ;; mret PAVBackend.

Definition _stwfsa : result AnnifBackend :=
  except_ImportError
    (imp "stwfsa" ;; mret StwfsaBackend)
    (Raise (ValueError
              "STWFSA not available, cannot use stwfsa backend")).

Definition _svc : result AnnifBackend :=
  imp "svc" ;; mret SVCBackend.

Definition _tfidf : result AnnifBackend :=
  imp "tfidf" ;; mret TFIDFBackend.

Definition _yake : result AnnifBackend :=
  except_ImportError
    (imp "yake" ;; mret YakeBackend)
    (Raise (ValueError "YAKE not available, cannot use yake backend")).

Definition _minilmv2 : result AnnifBackend :=
  except_ImportError
    (imp "minilmv2" ;; mret MiniLmV2Backend)
    (Raise (ValueError
              "MiniLMv2 not available, cannot use minilmv2 backend")).

Definition _xlmroberta : result AnnifBackend :=
  except_ImportError
    (imp "xlmroberta" ;; mret XlmRobertaBackend)
    (Raise (ValueError
              "XlmRoberta not available, cannot use xlmroberta backend")).

Definition _mdeberta : result AnnifBackend :=
  except_ImportError
    (imp "mdeberta" ;; mret MDeBertaBackend)
    (Raise (ValueError
              "MDeBERTa not available, cannot use mdeberta backend")).

Definition _ehribert : result AnnifBackend :=
  except_ImportError
    (imp "ehribert" ;; mret EhriBertBackend)
    (Raise (ValueError
              "EhriBert not available, cannot use ehribert backend")).

Definition _mistral : result AnnifBackend :=
  except_ImportError
    (imp "mistral" ;; mret MistralBackend)
    (Raise (ValueError
              "Mistral not available, cannot use mistral backend")).
End Loaders.

(** The registry, a dict from identifier to loader. *)
Definition _backend_fns
  : gmap string (installation → result AnnifBackend) :=
  list_to_map
    [ ("dummy", _dummy); ("ensemble", _ensemble); ("fasttext", _fasttext);
      ("http", _http); ("mllm", _mllm); ("nn_ensemble", _nn_ensemble);
      ("omikuji", _omikuji); ("pav", _pav); ("stwfsa", _stwfsa);
      ("svc", _svc); ("tfidf", _tfidf); ("yake", _yake);
      ("xlmroberta", _xlmroberta); ("minilmv2", _minilmv2);
      ("ehribert", _ehribert); ("mdeberta", _mdeberta);
      ("mistral", _mistral) ].

Definition get_backend (imp : installation) (backend_id : string)
  : result AnnifBackend :=
  match _backend_fns !! backend_id with
  | Some fn => fn imp
  | None => Raise (ValueError ("No such backend type " +:+ backend_id))
  end.

(** The identifiers whose loader guards its import with
    [except ImportError]: the backends with an optional dependency. *)
Definition optional_backends : list string :=
  [ "fasttext"; "nn_ensemble"; "omikuji"; "stwfsa"; "yake"; "minilmv2";
    "xlmroberta"; "mdeberta"; "ehribert"; "mistral" ].

(** The shape of the message of an unavailable backend. *)
Definition unavailable_msg (what backend_id : string) : string :=
  what +:+ " not available, cannot use " +:+ backend_id +:+ " backend".

(** The message of an unknown identifier. *)
Definition unknown_msg (backend_id : string) : string :=
  "No such backend type " +:+ backend_id.

(** An installation without any optional dependency: the submodules of
    the optional backends fail to import, the others import. *)
Definition core_installation : installation := λ name,
  if bool_decide (name ∈ optional_backends)
  then Raise (ImportError ("No module named " +:+ name))
  else Ok ().

End Backend.

(** ** Reference formulations used by the statements below *)

(** The discounted gain as the specification words it: position [i]
    (1-indexed) scores [1] if its label is relevant, else [0], divided by
    [log2 (i + 1)]; the positions are summed. *)
Fixpoint gain_from (relevant : list string) (i : nat) (labels : list string)
  : R :=
  match labels with
  | [] => 0
  | item :: rest =>
      (if bool_decide (item ∈ relevant) then 1 else 0) / log2 (INR (i + 1))
      + gain_from relevant (S i) rest
  end.

Definition dcg_spec (selected relevant : list string) (k : nat) : R :=
  match selected, relevant with
  | [], _ | _, [] => 0
  | _, _ => gain_from relevant 1 (take k selected)
  end.

(** The discount of the 1-indexed position [i]. *)
Definition weight (i : nat) : R := 1 / log2 (INR (i + 1)).

(** The gain of [n] hits in the positions [i, i+1, ..., i+n-1]. *)
Fixpoint ideal_from (i n : nat) : R :=
  match n with
  | O => 0
  | S n' => weight i + ideal_from (S i) n'
  end.

(** The sum of a per-document count over the aligned document pairs. *)
Fixpoint sum_pairs (g : list string → list string → nat)
    (selected relevant : list (list string)) : Z :=
  match selected, relevant with
  | ssubj :: selected', rsubj :: relevant' =>
      (Z.of_nat (g ssubj rsubj) + sum_pairs g selected' relevant')%Z
  | _, _ => 0%Z
  end.

(** The three counts of one document pair. *)
Definition tp_doc (ssubj rsubj : list string) : nat :=
  size ((list_to_set ssubj : gset string) ∩ list_to_set rsubj).
Definition fp_doc (ssubj rsubj : list string) : nat :=
  size ((list_to_set ssubj : gset string) ∖ list_to_set rsubj).
Definition fn_doc (ssubj rsubj : list string) : nat :=
  size ((list_to_set rsubj : gset string) ∖ list_to_set ssubj).

(** The sum of the sizes of the documents' sets. *)
Definition total_size (docs : list (list string)) : Z :=
  foldr (λ d n, (Z.of_nat (size (list_to_set d : gset string)) + n)%Z) 0%Z docs.


(** Two documents with the same labels, in whatever order and however
    often repeated. *)
Definition same_labels (a b : list string) : Prop := ∀ x, x ∈ a ↔ x ∈ b.

(** The identifiers whose loader imports without a guard. *)
Definition core_backends : list string :=
  [ "dummy"; "ensemble"; "http"; "mllm"; "pav"; "svc"; "tfidf" ].

(** The value a report holds for a metric name. *)
Fixpoint od_get (key : string) (d : report) : option score :=
  match d with
  | [] => None
  | (k, v) :: d' => if decide (k = key) then Some v else od_get key d'
  end.

(** The identifier under which the registry holds a backend class. *)
Definition backend_id_of (cls : Backend.AnnifBackend) : string :=
  match cls with
  | Backend.DummyBackend => "dummy"
  | Backend.EnsembleBackend => "ensemble"
  | Backend.FastTextBackend => "fasttext"
  | Backend.HTTPBackend => "http"
  | Backend.MLLMBackend => "mllm"
  | Backend.NNEnsembleBackend => "nn_ensemble"
  | Backend.OmikujiBackend => "omikuji"
  | Backend.PAVBackend => "pav"
  | Backend.StwfsaBackend => "stwfsa"
  | Backend.SVCBackend => "svc"
  | Backend.TFIDFBackend => "tfidf"
  | Backend.YakeBackend => "yake"
  | Backend.MiniLmV2Backend => "minilmv2"
  | Backend.XlmRobertaBackend => "xlmroberta"
  | Backend.MDeBertaBackend => "mdeberta"
  | Backend.EhriBertBackend => "ehribert"
  | Backend.MistralBackend => "mistral"
  end.

(** An installation in which every import fails. *)
Definition broken_installation : Backend.installation :=
  λ name, Raise (ImportError ("No module named " +:+ name)).

(** * Properties *)

#[local] Arguments INR : simpl never.
#[local] Arguments log2 : simpl never.

(** ** The discount weights *)

Section Weights.

Lemma ln_2_pos : 0 < ln 2.
Proof. rewrite <- ln_1. apply ln_increasing; lra. Qed.

Lemma log2_pos x : 1 < x → 0 < log2 x.
Proof.
  intros Hx. unfold log2. apply Rdiv_lt_0_compat; [|apply ln_2_pos].
  rewrite <- ln_1. apply ln_increasing; lra.
Qed.

Lemma log2_mono x y : 0 < x → x <= y → log2 x <= log2 y.
Proof.
  intros Hx [Hlt | ->]; [|apply Rle_refl].
  unfold log2. apply Rmult_le_compat_r.
  - left. apply Rinv_0_lt_compat, ln_2_pos.
  - left. by apply ln_increasing.
Qed.

Lemma weight_pos i : (1 ≤ i)%nat → 0 < weight i.
Proof.
  intros Hi. unfold weight. apply Rdiv_lt_0_compat; [lra|].
  apply log2_pos. apply (lt_INR 1). lia.
Qed.

Lemma weight_antitone i j : (1 ≤ i ≤ j)%nat → weight j <= weight i.
Proof.
  intros [Hi Hj]. unfold weight.
  assert (0 < log2 (INR (i + 1))) as Hpi by (apply log2_pos, (lt_INR 1); lia).
  assert (log2 (INR (i + 1)) <= log2 (INR (j + 1))) as Hle.
  { apply log2_mono; [apply (lt_INR 0); lia | apply le_INR; lia]. }
  unfold Rdiv. rewrite !Rmult_1_l.
  apply Rinv_le_contravar; assumption.
Qed.

Lemma ideal_from_nonneg i n : (1 ≤ i)%nat → 0 <= ideal_from i n.
Proof.
  revert i. induction n as [|n IH]; intros i Hi; simpl; [lra|].
  pose proof (weight_pos i Hi). specialize (IH (S i) ltac:(lia)). lra.
Qed.

Lemma ideal_from_shift i n :
  (1 ≤ i)%nat → ideal_from (S i) n <= ideal_from i n.
Proof.
  revert i. induction n as [|n IH]; intros i Hi; simpl; [lra|].
  pose proof (weight_antitone i (S i) ltac:(lia)).
  specialize (IH (S i) ltac:(lia)). lra.
Qed.

Lemma ideal_from_mono i n m :
  (1 ≤ i)%nat → (n ≤ m)%nat → ideal_from i n <= ideal_from i m.
Proof.
  revert i m. induction n as [|n IH]; intros i m Hi Hnm; simpl.
  - by apply ideal_from_nonneg.
  - destruct m as [|m]; [lia|]. simpl.
    specialize (IH (S i) m ltac:(lia) ltac:(lia)). lra.
Qed.

End Weights.

(** ** The discounted cumulative gain *)

Section Dcg.

Lemma slice_to_nonneg {A} (k : Z) (l : list A) :
  (0 ≤ k)%Z → slice_to k l = take (Z.to_nat k) l.
Proof. intros Hk. unfold slice_to. by rewrite (Zle_imp_le_bool _ _ Hk). Qed.

Lemma IZR_int_of_bool b : IZR (int_of_bool b) = if b then 1 else 0.
Proof. by destruct b. Qed.

Lemma arange_2 (n : nat) :
  arange 2 (Z.of_nat n + 2) = (λ i, (2 + Z.of_nat i)%Z) <$> seq 0 n.
Proof. unfold arange. do 2 f_equal. lia. Qed.

Lemma weighted_sum_gain (relevant items : list string) (s : nat) :
  np_sum
    (zip_with Rdiv
       (IZR <$> ((λ item, int_of_bool (bool_decide (item ∈ relevant)))
                   <$> items))
       ((λ n, log2 (IZR n))
          <$> ((λ i, (2 + Z.of_nat i)%Z) <$> seq s (length items))))
  = gain_from relevant (S s) items.
Proof.
  revert s. induction items as [|item items IH]; intros s; [done|].
  simpl. rewrite IH, IZR_int_of_bool. f_equal.
  rewrite INR_IZR_INZ. do 3 f_equal. lia.
Qed.

(** Past its guard, [dcg] is the discounted gain of the sliced list. *)
Lemma dcg_gain (selected relevant : list string) (k : Z) :
  selected ≠ [] → relevant ≠ [] →
  dcg selected relevant k = gain_from relevant 1 (slice_to k selected).
Proof.
  intros Hs Hr. unfold dcg. case_decide as Hlen.
  - destruct Hlen as [H%length_zero_iff_nil | H%length_zero_iff_nil]; done.
  - rewrite arange_2, !length_fmap. apply weighted_sum_gain.
Qed.

Lemma dcg_empty_selected (relevant : list string) (k : Z) :
  dcg [] relevant k = 0.
Proof. unfold dcg. case_decide as H; [done|]. exfalso. apply H. by left. Qed.

Lemma dcg_empty_relevant (selected : list string) (k : Z) :
  dcg selected [] k = 0.
Proof. unfold dcg. case_decide as H; [done|]. exfalso. apply H. by right. Qed.

(** The number of relevant labels in a list. *)
Lemma gain_from_le_ideal (relevant items : list string) (i : nat) :
  (1 ≤ i)%nat →
  gain_from relevant i items
  <= ideal_from i (length (filter (λ item, item ∈ relevant) items)).
Proof.
  revert i. induction items as [|item items IH]; intros i Hi; simpl; [lra|].
  specialize (IH (S i) ltac:(lia)).
  rewrite filter_cons. case_bool_decide as Hin.
  - rewrite decide_True by done. simpl. unfold weight at 1. 
    lra.
  - rewrite decide_False by done.
    pose proof (ideal_from_shift i
      (length (filter (λ item, item ∈ relevant) items)) Hi).
    unfold Rdiv at 1. rewrite Rmult_0_l. lra.
Qed.

Lemma gain_from_all_relevant (relevant items : list string) (i : nat) :
  items ⊆ relevant →
  gain_from relevant i items = ideal_from i (length items).
Proof.
  revert i. induction items as [|item items IH]; intros i Hsub; [done|].
  simpl. rewrite bool_decide_eq_true_2 by set_solver.
  rewrite IH by set_solver. done.
Qed.

End Dcg.

(** ** The ideal ranking as an upper bound *)

Section Ideal.





(** The loop of [normalized_dcg] collects one score per aligned pair. *)
Lemma ndcg_scores (k : Z) (selected relevant : list (list string))
    (acc : list R) :
  foldl (λ scores '(ssubj, rsubj), scores ++ [ndcg_doc k ssubj rsubj])
        acc (zip selected relevant)
  = acc ++ zip_with (ndcg_doc k) selected relevant.
Proof.
  revert relevant acc.
  induction selected as [|s selected IH]; intros [|r relevant] acc;
    simpl; rewrite ?app_nil_r; try done.
  rewrite IH, <- app_assoc. done.
Qed.

Lemma normalized_dcg_unfold (selected relevant : list (list string)) (k : Z) :
  normalized_dcg selected relevant k
  = mean (zip_with (ndcg_doc k) selected relevant).
Proof. unfold normalized_dcg. by rewrite ndcg_scores. Qed.



End Ideal.

(** ** Evaluating the gain on concrete rankings *)

Section Concrete.

Lemma gain_from_cons (relevant : list string) (i : nat) (item : string)
    (rest : list string) :
  gain_from relevant i (item :: rest)
  = (if bool_decide (item ∈ relevant) then weight i else 0)
    + gain_from relevant (S i) rest.
Proof.
  simpl. unfold weight. case_bool_decide; [done|].
  unfold Rdiv. by rewrite !Rmult_0_l.
Qed.

Lemma gain_from_nil (relevant : list string) (i : nat) :
  gain_from relevant i [] = 0.
Proof. done. Qed.

Lemma weight_1 : weight 1 = 1.
Proof.
  unfold weight, log2. replace (INR (1 + 1)) with 2
    by (rewrite INR_IZR_INZ; by change (Z.of_nat (1 + 1)) with 2%Z).
  pose proof ln_2_pos. field. lra.
Qed.

Lemma weight_3 : weight 3 = 1 / 2.
Proof.
  unfold weight, log2. replace (INR (3 + 1)) with (2 * 2).
  - rewrite ln_mult by lra. pose proof ln_2_pos. field. lra.
  - rewrite INR_IZR_INZ. change (Z.of_nat (3 + 1)) with 4%Z. lra.
Qed.


End Concrete.

(** Decides the membership tests of a gain on closed lists. *)
Ltac eval_membership :=
  repeat match goal with
         | |- context [bool_decide (?x ∈ ?l)] =>
             let b := constr:(bool_decide (x ∈ l)) in
             let v := eval vm_compute in b in
             change b with v
         end.

Ltac eval_slices :=
  repeat match goal with
         | |- context [slice_to ?k ?l] =>
             let s := constr:(slice_to k l) in
             let v := eval vm_compute in s in
             change s with v
         end.

Ltac eval_dcg :=
  rewrite ?dcg_gain by done; eval_slices;
  rewrite ?gain_from_cons, ?gain_from_nil; eval_membership; cbv beta iota.

Example dcg_three_labels :
  dcg ["a"; "b"; "c"] ["a"; "c"] 3 = 3 / 2.
Proof. eval_dcg. rewrite weight_1, weight_3. lra. Qed.

Example dcg_top_1 :
  dcg ["a"; "b"; "c"] ["a"; "c"] 1 = 1.
Proof. eval_dcg. rewrite weight_1. lra. Qed.

Example dcg_negative_bound :
  dcg ["a"; "b"; "c"] ["a"; "c"] (-1) = 1.
Proof. eval_dcg. rewrite weight_1. lra. Qed.

(** C3, as stated, fails for a negative bound: [selected[:-1]] is not the
    first [-1] labels (none) but all labels except the last one, so the
    gain of [[a, b, c]] against [[a, c]] at [k = -1] is 1, where the sum
    over the first [k] labels is empty. *)
Lemma dcg_negative_bound_not_first_k :
  dcg ["a"; "b"; "c"] ["a"; "c"] (-1) = 1
  ∧ dcg_spec ["a"; "b"; "c"] ["a"; "c"] (Z.to_nat (-1)) = 0
  ∧ dcg ["a"; "b"; "c"] ["a"; "c"] (-1)
    ≠ dcg_spec ["a"; "b"; "c"] ["a"; "c"] (Z.to_nat (-1)).
Proof.
  assert (dcg ["a"; "b"; "c"] ["a"; "c"] (-1) = 1) as Hcode.
  { eval_dcg. rewrite weight_1. lra. }
  assert (dcg_spec ["a"; "b"; "c"] ["a"; "c"] (Z.to_nat (-1)) = 0) as Hspec
    by reflexivity.
  split; [exact Hcode|]. split; [exact Hspec|].
  rewrite Hcode, Hspec. lra.
Qed.

(** C3 (dcg, amended): the gain is [0] when either side is empty;
    otherwise it is the sum, over the predicted labels kept by the slice
    [selected[:k]] in rank order, of [1] (label relevant) or [0] divided by
    [log2 (i + 1)], [i] the 1-indexed position.  The slice keeps the first
    [k] labels for a bound [k >= 0], and all but the last [-k] labels for
    a negative bound. *)
Theorem dcg_refines_spec (selected relevant : list string) (k : Z) :
  (selected = [] ∨ relevant = [] → dcg selected relevant k = 0)
  ∧ dcg selected relevant k
    = dcg_spec selected relevant (length (slice_to k selected))
  ∧ ((0 ≤ k)%Z →
     dcg selected relevant k = dcg_spec selected relevant (Z.to_nat k))
  ∧ ((k < 0)%Z →
     dcg selected relevant k
     = dcg_spec selected relevant (length selected - Z.to_nat (- k))).
Proof.
  assert (∀ n : nat,
            slice_to k selected = take n selected →
            dcg selected relevant k = dcg_spec selected relevant n) as Hcut.
  { intros n Hn. destruct selected as [|s selected].
    { by rewrite dcg_empty_selected. }
    destruct relevant as [|r relevant].
    { by rewrite dcg_empty_relevant. }
    rewrite dcg_gain, Hn by done. done. }
  split; [|split; [|split]].
  - intros [-> | ->]; [apply dcg_empty_selected | apply dcg_empty_relevant].
  - apply Hcut. unfold slice_to.
    destruct (0 <=? k)%Z; rewrite length_take;
      (apply Nat.min_case_strong; intros Hle; [done|]);
      by rewrite !take_ge by lia.
  - intros Hk. apply Hcut. by apply slice_to_nonneg.
  - intros Hk. apply Hcut. unfold slice_to.
    by rewrite (proj2 (Z.leb_gt 0 k) Hk).
Qed.

Lemma dcg_refines_spec_witness :
  ((0 ≤ 2)%Z
   ∧ dcg ["a"; "b"; "c"] ["a"; "c"] 2
     = dcg_spec ["a"; "b"; "c"] ["a"; "c"] (Z.to_nat 2))
  ∧ ((-1 < 0)%Z
     ∧ dcg ["a"; "b"; "c"] ["a"; "c"] (-1)
       = dcg_spec ["a"; "b"; "c"] ["a"; "c"]
           (length ["a"; "b"; "c"] - Z.to_nat (- -1))).
Proof.
  split.
  - split; [lia|].
    apply (proj1 (proj2 (proj2
             (dcg_refines_spec ["a"; "b"; "c"] ["a"; "c"] 2)))). lia.
  - split; [lia|].
    apply (proj2 (proj2 (proj2
             (dcg_refines_spec ["a"; "b"; "c"] ["a"; "c"] (-1))))). lia.
Defined.




(** ** The normalized gain of a batch *)

(** C4 (normalized_dcg): for a batch with at least one aligned document
    pair the function returns the arithmetic mean of one score per
    document; the score is [dcg selected relevant k / dcg relevant relevant k],
    and it is [0] when the ideal gain is [0], in particular when the gold
    set is empty. *)
Theorem normalized_dcg_mean (selected relevant : list (list string)) (k : Z) :
  selected ≠ [] → relevant ≠ [] →
  ∃ scores : list R,
    normalized_dcg selected relevant k
    = Ok (np_sum scores / INR (length scores))
    ∧ length scores = (length selected `min` length relevant)%nat
    ∧ ∀ (i : nat) (ssubj rsubj : list string),
        selected !! i = Some ssubj → relevant !! i = Some rsubj →
        ∃ x : R,
          scores !! i = Some x
          ∧ (dcg rsubj rsubj k = 0 → x = 0)
          ∧ (dcg rsubj rsubj k ≠ 0 →
             x = dcg ssubj rsubj k / dcg rsubj rsubj k)
          ∧ (rsubj = [] → x = 0).
Proof.
  intros Hs Hr. exists (zip_with (ndcg_doc k) selected relevant).
  split; [|split].
  - rewrite normalized_dcg_unfold.
    destruct selected as [|s selected]; [done|].
    destruct relevant as [|r relevant]; done.
  - apply length_zip_with.
  - intros i ssubj rsubj Hi Hj. exists (ndcg_doc k ssubj rsubj).
    split; [by rewrite lookup_zip_with, Hi, Hj|].
    unfold ndcg_doc. destruct (Req_dec_T _ _) as [Hz | Hnz].
    + repeat split; [done..|]. done.
    + repeat split; [done..|].
      intros ->. by rewrite dcg_empty_selected in Hnz.
Qed.

Lemma normalized_dcg_mean_witness :
  [["x"; "y"]; ["z"]] ≠ [] ∧ [["x"; "z"]; ([] : list string)] ≠ []
  ∧ ∃ scores : list R,
      normalized_dcg [["x"; "y"]; ["z"]] [["x"; "z"]; []] 5
      = Ok (np_sum scores / INR (length scores))
      ∧ length scores = 2%nat.
Proof.
  split; [discriminate|]. split; [discriminate|].
  destruct (normalized_dcg_mean [["x"; "y"]; ["z"]] [["x"; "z"]; []] 5
              ltac:(discriminate) ltac:(discriminate))
    as (scores & Heq & Hlen & _).
  exists scores. split; [exact Heq | exact Hlen].
Defined.

(** ** Batches of unequal length *)

Section Truncation.

Lemma zip_take_min {A B} (l : list A) (k : list B) :
  zip l k = zip (take (length l `min` length k) l)
                (take (length l `min` length k) k).
Proof.
  revert k. induction l as [|x l IH]; intros [|y k]; simpl; try done.
  by rewrite <- IH.
Qed.

End Truncation.

(** C10, as stated, fails for [normalized_dcg]: when the shorter side has no
    document at all, no pair is scored and the mean of nothing raises. *)
Lemma normalized_dcg_raises_without_pairs :
  length ([] : list (list string)) ≠ length [["A"]]
  ∧ normalized_dcg [] [["A"]] 5
    = Raise (StatisticsError "mean requires at least one data point").
Proof. split; [by simpl | reflexivity]. Qed.

(** C10 (amended): with [n] the smaller of the two document counts, the
    three counts and the normalized gain compute over the first [n] aligned
    pairs only, the extra documents of the longer side being ignored; the
    counts never raise, and [normalized_dcg] returns a score whenever
    [n >= 1]. *)
Theorem metrics_ignore_unaligned_documents
    (selected relevant : list (list string)) (k : Z) :
  let n := (length selected `min` length relevant)%nat in
  true_positives selected relevant
  = true_positives (take n selected) (take n relevant)
  ∧ false_positives selected relevant
    = false_positives (take n selected) (take n relevant)
  ∧ false_negatives selected relevant
    = false_negatives (take n selected) (take n relevant)
  ∧ normalized_dcg selected relevant k
    = normalized_dcg (take n selected) (take n relevant) k
  ∧ ((1 ≤ n)%nat → ∃ x : R, normalized_dcg selected relevant k = Ok x).
Proof.
  intros n. subst n.
  unfold true_positives, false_positives, false_negatives, normalized_dcg.
  rewrite <- !zip_take_min. repeat split; try done.
  intros Hn. rewrite ndcg_scores.
  destruct selected as [|s selected]; [simpl in Hn; lia|].
  destruct relevant as [|r relevant]; [simpl in Hn; lia|].
  simpl. eauto.
Qed.

Lemma metrics_ignore_unaligned_documents_witness :
  (1 ≤ length [["A"; "B"]; ["C"]] `min` length [["A"]])%nat
  ∧ ∃ x : R, normalized_dcg [["A"; "B"]; ["C"]] [["A"]] 5 = Ok x.
Proof.
  split; [simpl; lia|].
  apply (metrics_ignore_unaligned_documents [["A"; "B"]; ["C"]] [["A"]] 5).
  simpl. lia.
Defined.

(** ** The set-overlap counts *)

Section Counts.

Lemma foldl_sum_pairs (g : list string → list string → nat)
    (selected relevant : list (list string)) (acc : Z) :
  foldl (λ count '(ssubj, rsubj), (count + Z.of_nat (g ssubj rsubj))%Z)
        acc (zip selected relevant)
  = (acc + sum_pairs g selected relevant)%Z.
Proof.
  revert relevant acc.
  induction selected as [|s selected IH]; intros [|r relevant] acc; simpl;
    try lia.
  rewrite IH. lia.
Qed.

Lemma true_positives_sum selected relevant :
  true_positives selected relevant = sum_pairs tp_doc selected relevant.
Proof. apply (foldl_sum_pairs tp_doc selected relevant 0). Qed.

Lemma false_positives_sum selected relevant :
  false_positives selected relevant = sum_pairs fp_doc selected relevant.
Proof. apply (foldl_sum_pairs fp_doc selected relevant 0). Qed.

Lemma false_negatives_sum selected relevant :
  false_negatives selected relevant = sum_pairs fn_doc selected relevant.
Proof. apply (foldl_sum_pairs fn_doc selected relevant 0). Qed.

Lemma size_split (X Y : gset string) :
  (size (X ∩ Y) + size (X ∖ Y))%nat = size X.
Proof.
  pose proof (size_difference_alt X Y).
  pose proof (subseteq_size (X ∩ Y) X (intersection_subseteq_l X Y)).
  lia.
Qed.

Lemma tp_fp_doc ssubj rsubj :
  (tp_doc ssubj rsubj + fp_doc ssubj rsubj)%nat
  = size (list_to_set ssubj : gset string).
Proof. apply size_split. Qed.

Lemma tp_fn_doc ssubj rsubj :
  (tp_doc ssubj rsubj + fn_doc ssubj rsubj)%nat
  = size (list_to_set rsubj : gset string).
Proof.
  unfold tp_doc, fn_doc.
  rewrite (comm_L (∩) (list_to_set ssubj)). apply size_split.
Qed.

End Counts.

(** C5 (set-overlap identity): over a batch of aligned document pairs, the
    true positives plus the false negatives count the relevant sets, and
    the true positives plus the false positives count the selected sets. *)
Theorem set_overlap_identity (selected relevant : list (list string)) :
  length selected = length relevant →
  (true_positives selected relevant + false_negatives selected relevant)%Z
  = total_size relevant
  ∧ (true_positives selected relevant + false_positives selected relevant)%Z
    = total_size selected.
Proof.
  rewrite true_positives_sum, false_positives_sum, false_negatives_sum.
  revert relevant.
  induction selected as [|s selected IH]; intros [|r relevant] Hlen;
    simpl in Hlen; try discriminate; [done|].
  destruct (IH relevant ltac:(congruence)) as [IHr IHs].
  pose proof (tp_fn_doc s r). pose proof (tp_fp_doc s r).
  simpl. split; lia.
Qed.

Lemma set_overlap_identity_witness :
  length [["x"; "y"]; ["z"]] = length [["x"; "z"]; ["z"]]
  ∧ (true_positives [["x"; "y"]; ["z"]] [["x"; "z"]; ["z"]]
     + false_negatives [["x"; "y"]; ["z"]] [["x"; "z"]; ["z"]])%Z
    = total_size [["x"; "z"]; ["z"]]
  ∧ (true_positives [["x"; "y"]; ["z"]] [["x"; "z"]; ["z"]]
     + false_positives [["x"; "y"]; ["z"]] [["x"; "z"]; ["z"]])%Z
    = total_size [["x"; "y"]; ["z"]].
Proof.
  split; [reflexivity|].
  apply (set_overlap_identity [["x"; "y"]; ["z"]] [["x"; "z"]; ["z"]]).
  reflexivity.
Defined.

(** The end-to-end example of the specification. *)
Example counts_two_documents :
  true_positives [["x"; "y"]; ["z"]] [["x"; "z"]; ["z"]] = 2%Z
  ∧ false_positives [["x"; "y"]; ["z"]] [["x"; "z"]; ["z"]] = 1%Z
  ∧ false_negatives [["x"; "y"]; ["z"]] [["x"; "z"]; ["z"]] = 1%Z.
Proof. repeat split; vm_compute; reflexivity. Qed.

(** ** The key space of a document *)

(** C6 (transform_sample): [results] scores the transformed samples, and
    each sample is transformed in one key space chosen by [has_uris]: the
    hits' identifiers, in order, against the gold identifiers, or the hits'
    labels, in order, against the gold labels; never a mixture. *)
Theorem sample_key_space :
  (∀ batch : EvaluationBatch.t,
     EvaluationBatch.results batch
     = evaluate (transform_sample <$> EvaluationBatch._samples batch))
  ∧ ∀ (hits : list Hit) (gold : SubjectSet),
      let '(selected, relevant) := transform_sample (hits, gold) in
      (has_uris gold = true
       ∧ selected = uri <$> hits
       ∧ ∀ x, x ∈ relevant ↔ x ∈ subject_uris gold)
      ∨ (has_uris gold = false
         ∧ selected = label <$> hits
         ∧ ∀ x, x ∈ relevant ↔ x ∈ subject_labels gold).
Proof.
  split; [done|].
  intros hits [[] uris labels]; simpl; [left | right];
    (split; [done|]; split; [done|]; intros x; apply elem_of_elements).
Qed.

(** A document whose gold set has identifiers is compared by identifier
    even where a hit's label is a gold label; one without them is compared
    by label. *)
Example transform_sample_by_uri :
  transform_sample
    ([mkHit "u:1" "cats"; mkHit "u:2" "dogs"],
     mkSubjectSet true {["u:2"]} {["cats"]})
  = (["u:1"; "u:2"], ["u:2"]).
Proof. vm_compute. reflexivity. Qed.

Example transform_sample_by_label :
  transform_sample
    ([mkHit "u:1" "cats"; mkHit "u:2" "dogs"],
     mkSubjectSet false ∅ {["cats"]})
  = (["cats"; "dogs"], ["cats"]).
Proof. vm_compute. reflexivity. Qed.

(** ** The report *)

Section Report.

(** Eleven assignments to distinct keys leave eleven entries, in the
    order of assignment. *)
Lemma od_set_metric_names (v1 v2 v3 v4 v5 v6 v7 v8 v9 v10 v11 : score) :
  od_set "False negatives" v11
    (od_set "False positives" v10
      (od_set "True positives" v9
        (od_set "Precision@5" v8
          (od_set "Precision@3" v7
            (od_set "Precision@1" v6
              (od_set "NDCG@10" v5
                (od_set "NDCG@5" v4
                  (od_set "F-measure" v3
                    (od_set "Recall" v2
                      (od_set "Precision" v1 []))))))))))
  = [ ("Precision", v1); ("Recall", v2); ("F-measure", v3);
      ("NDCG@5", v4); ("NDCG@10", v5); ("Precision@1", v6);
      ("Precision@3", v7); ("Precision@5", v8); ("True positives", v9);
      ("False positives", v10); ("False negatives", v11) ].
Proof. vm_compute. reflexivity. Qed.

Lemma unpack_zip_star_cons {A B} (samples : list (A * B)) :
  samples ≠ [] → unpack_zip_star samples = Ok (samples.*1, samples.*2).
Proof. by destruct samples. Qed.

Lemma normalized_dcg_ok (selected relevant : list (list string)) (k : Z) :
  selected ≠ [] → length selected = length relevant →
  normalized_dcg selected relevant k
  = Ok (np_sum (zip_with (ndcg_doc k) selected relevant)
        / INR (length (zip_with (ndcg_doc k) selected relevant))).
Proof.
  intros Hs Hlen. rewrite normalized_dcg_unfold.
  destruct selected as [|s selected]; [done|].
  destruct relevant as [|r relevant]; done.
Qed.

(** The report of a non-empty batch, entry by entry. *)
Lemma evaluate_nonempty (samples : list (list string * list string)) :
  samples ≠ [] →
  let s := samples.*1 in
  let r := samples.*2 in
  let ndcg k :=
    np_sum (zip_with (ndcg_doc k) s r)
    / INR (length (zip_with (ndcg_doc k) s r)) in
  evaluate samples
  = Ok [ ("Precision", SFloat (precision s r None));
         ("Recall", SFloat (recall s r));
         ("F-measure", SFloat (f_measure s r));
         ("NDCG@5", SFloat (ndcg 5%Z));
         ("NDCG@10", SFloat (ndcg 10%Z));
         ("Precision@1", SFloat (precision s r (Some 1%Z)));
         ("Precision@3", SFloat (precision s r (Some 3%Z)));
         ("Precision@5", SFloat (precision s r (Some 5%Z)));
         ("True positives", SInt (true_positives s r));
         ("False positives", SInt (false_positives s r));
         ("False negatives", SInt (false_negatives s r)) ].
Proof.
  intros Hne s r ndcg.
  assert (s ≠ []) as Hs by (subst s; by destruct samples).
  assert (length s = length r) as Hlen by (subst s r; by rewrite !length_fmap).
  unfold evaluate, metrics. cbn [foldl].
  rewrite (unpack_zip_star_cons samples Hne). fold s r.
  cbn [mbind result_bind mret result_ret].
  rewrite !(normalized_dcg_ok s r) by done.
  cbn [fmap result_fmap mbind result_bind mret result_ret].
  rewrite od_set_metric_names. done.
Qed.

Lemma evaluate_empty :
  evaluate []
  = Raise (ValueError "not enough values to unpack (expected 2, got 0)").
Proof. reflexivity. Qed.


End Report.

(** C1 (empty batch): [results] on a batch without samples raises, and
    returns no report; the error is the batch's own: with the
    sample-averaged scores total, as the specification describes them,
    [results] raises for no batch that holds a sample. *)
Theorem results_empty_batch :
  EvaluationBatch.results EvaluationBatch.__init__
  = Raise (ValueError "not enough values to unpack (expected 2, got 0)")
  ∧ (∀ batch : EvaluationBatch.t,
       EvaluationBatch._samples batch = [] →
       ∀ rep : report, EvaluationBatch.results batch ≠ Ok rep)
  ∧ (∀ (batch : EvaluationBatch.t) (e : exn),
       EvaluationBatch.results batch = Raise e →
       EvaluationBatch._samples batch = []).
Proof.
  split; [reflexivity|]. split.
  - intros [samples] Hempty rep. simpl in Hempty. subst samples.
    unfold EvaluationBatch.results. simpl. rewrite evaluate_empty. done.
  - intros [samples] e. unfold EvaluationBatch.results. simpl.
    destruct samples as [|sample samples]; [done|].
    rewrite evaluate_nonempty by done. done.
Qed.

Lemma results_empty_batch_witness :
  EvaluationBatch._samples EvaluationBatch.__init__ = []
  ∧ EvaluationBatch.results EvaluationBatch.__init__ ≠ Ok [].
Proof.
  split; [reflexivity|].
  apply (proj1 (proj2 results_empty_batch) EvaluationBatch.__init__).
  reflexivity.
Defined.

(** ** Precision, recall and F-measure *)

Section Classification.


Lemma ratio_pos (num den : nat) :
  den ≠ 0%nat → ratio num den = INR num / INR den.
Proof. intros H. unfold ratio. by rewrite decide_False. Qed.

End Classification.

(** Computes the indicator rows and the counts of a closed batch. *)
Ltac eval_rows :=
  repeat match goal with
         | |- context [mlb_transform ?c ?y] =>
             let t := constr:(mlb_transform c y) in
             let v := eval vm_compute in t in
             change t with v
         end.

Ltac eval_counts :=
  repeat match goal with
         | |- context [ratio ?n ?d] =>
             let n' := eval vm_compute in n in
             let d' := eval vm_compute in d in
             change (ratio n d) with (ratio n' d');
             rewrite (ratio_pos n' d') by discriminate
         end;
  rewrite ?INR_IZR_INZ;
  repeat match goal with
         | |- context [Z.of_nat ?n] =>
             let z := eval vm_compute in (Z.of_nat n) in
             change (Z.of_nat n) with z
         end.



(** The recall of the end-to-end example of the specification: the
    average of [1/2] and [1]. *)
Example recall_two_documents :
  recall [["x"; "y"]; ["z"]] [["x"; "z"]; ["z"]] = 3 / 4.
Proof.
  unfold recall, sklearn_metric_score. eval_rows.
  unfold recall_score, samples_average. simpl zip_with.
  unfold sample_recall. eval_counts. simpl. lra.
Qed.

(** ** Reversing the order of the documents *)

Section Reversal.




Lemma sum_pairs_app g (l1 l2 k1 k2 : list (list string)) :
  length l1 = length k1 →
  sum_pairs g (l1 ++ l2) (k1 ++ k2)
  = (sum_pairs g l1 k1 + sum_pairs g l2 k2)%Z.
Proof.
  revert k1. induction l1 as [|x l1 IH]; intros [|y k1] Hlen;
    simpl in Hlen; try discriminate; [done|].
  simpl. rewrite IH by congruence. lia.
Qed.









End Reversal.



(** ** The backend registry *)

Section Registry.

Import Backend.

Variable imp : installation.

Lemma get_backend_unknown (backend_id : string) :
  _backend_fns !! backend_id = None →
  get_backend imp backend_id = Raise (ValueError (unknown_msg backend_id)).
Proof. intros H. unfold get_backend. by rewrite H. Qed.

Lemma get_backend_registered (backend_id : string)
    (fn : installation → result AnnifBackend) :
  _backend_fns !! backend_id = Some fn →
  get_backend imp backend_id = fn imp.
Proof. intros H. unfold get_backend. by rewrite H. Qed.

(** A guarded loader turns a failed import into its own [ValueError] and
    lets no [ImportError] through. *)
Lemma guarded_loader_unavailable (name : string) (cls : AnnifBackend)
    (msg why : string) :
  imp name = Raise (ImportError why) →
  except_ImportError (imp name ;; mret cls) (Raise (ValueError msg))
  = Raise (ValueError msg).
Proof. intros ->. done. Qed.

Lemma guarded_loader_no_import_error (name : string) (cls : AnnifBackend)
    (msg why : string) :
  except_ImportError (imp name ;; mret cls) (Raise (ValueError msg))
  ≠ Raise (ImportError why).
Proof. unfold except_ImportError. destruct (imp name) as [[]|[]]; done. Qed.

End Registry.

(** Looks an identifier up in the registry and runs its loader. *)
Ltac run_loader name :=
  match goal with
  | |- context [Backend.get_backend ?imp ?id] =>
      rewrite (get_backend_registered imp id name)
        by (vm_compute; reflexivity)
  end.

(** C9 (get_backend): an identifier that is not in the registry raises the
    unknown-identifier [ValueError]; a registered backend with an optional
    dependency whose import fails raises a [ValueError] of one shape,
    "<what> not available, cannot use <id> backend", whose message is never
    that of an unknown identifier; in neither case does an [ImportError]
    reach the caller. *)
Theorem get_backend_errors (imp : Backend.installation) :
  (∀ backend_id : string,
     Backend._backend_fns !! backend_id = None →
     Backend.get_backend imp backend_id
     = Raise (ValueError (Backend.unknown_msg backend_id))
     ∧ ∀ why, Backend.get_backend imp backend_id ≠ Raise (ImportError why))
  ∧ (∀ backend_id : string,
       backend_id ∈ Backend.optional_backends →
       is_Some (Backend._backend_fns !! backend_id)
       ∧ (∀ why, Backend.get_backend imp backend_id ≠ Raise (ImportError why))
       ∧ ((∃ why, imp backend_id = Raise (ImportError why)) →
          ∃ what : string,
            Backend.get_backend imp backend_id
            = Raise (ValueError (Backend.unavailable_msg what backend_id))
            ∧ ∀ other_id : string,
                Backend.unavailable_msg what backend_id
                ≠ Backend.unknown_msg other_id)).
Proof.
  split.
  - intros backend_id Hnone. rewrite get_backend_unknown by done.
    split; [done | discriminate].
  - intros backend_id Hin. unfold Backend.optional_backends in Hin.
    repeat (apply elem_of_cons in Hin as [-> | Hin]);
      [..|by apply elem_of_nil in Hin].
    all: split; [by eexists; vm_compute|].
    + run_loader Backend._fasttext. split; [intros why; apply guarded_loader_no_import_error|].
      intros [why Hwhy]. exists "fastText".
      split; [exact (guarded_loader_unavailable imp _ _ _ why Hwhy)|].
      discriminate.
    + run_loader Backend._nn_ensemble. split; [intros why; apply guarded_loader_no_import_error|].
      intros [why Hwhy]. exists "Keras and TensorFlow".
      split; [exact (guarded_loader_unavailable imp _ _ _ why Hwhy)|].
      discriminate.
    + run_loader Backend._omikuji. split; [intros why; apply guarded_loader_no_import_error|].
      intros [why Hwhy]. exists "Omikuji".
      split; [exact (guarded_loader_unavailable imp _ _ _ why Hwhy)|].
      discriminate.
    + run_loader Backend._stwfsa. split; [intros why; apply guarded_loader_no_import_error|].
      intros [why Hwhy]. exists "STWFSA".
      split; [exact (guarded_loader_unavailable imp _ _ _ why Hwhy)|].
      discriminate.
    + run_loader Backend._yake. split; [intros why; apply guarded_loader_no_import_error|].
      intros [why Hwhy]. exists "YAKE".
      split; [exact (guarded_loader_unavailable imp _ _ _ why Hwhy)|].
      discriminate.
    + run_loader Backend._minilmv2. split; [intros why; apply guarded_loader_no_import_error|].
      intros [why Hwhy]. exists "MiniLMv2".
      split; [exact (guarded_loader_unavailable imp _ _ _ why Hwhy)|].
      discriminate.
    + run_loader Backend._xlmroberta. split; [intros why; apply guarded_loader_no_import_error|].
      intros [why Hwhy]. exists "XlmRoberta".
      split; [exact (guarded_loader_unavailable imp _ _ _ why Hwhy)|].
      discriminate.
    + run_loader Backend._mdeberta. split; [intros why; apply guarded_loader_no_import_error|].
      intros [why Hwhy]. exists "MDeBERTa".
      split; [exact (guarded_loader_unavailable imp _ _ _ why Hwhy)|].
      discriminate.
    + run_loader Backend._ehribert. split; [intros why; apply guarded_loader_no_import_error|].
      intros [why Hwhy]. exists "EhriBert".
      split; [exact (guarded_loader_unavailable imp _ _ _ why Hwhy)|].
      discriminate.
    + run_loader Backend._mistral. split; [intros why; apply guarded_loader_no_import_error|].
      intros [why Hwhy]. exists "Mistral".
      split; [exact (guarded_loader_unavailable imp _ _ _ why Hwhy)|].
      discriminate.
Qed.

Lemma get_backend_errors_witness :
  (Backend._backend_fns !! "word2vec" = None
   ∧ Backend.get_backend Backend.core_installation "word2vec"
     = Raise (ValueError (Backend.unknown_msg "word2vec")))
  ∧ ("fasttext" ∈ Backend.optional_backends
     ∧ (∃ why, Backend.core_installation "fasttext" = Raise (ImportError why))
     ∧ ∃ what : string,
         Backend.get_backend Backend.core_installation "fasttext"
         = Raise (ValueError (Backend.unavailable_msg what "fasttext"))).
Proof.
  assert (Backend._backend_fns !! "word2vec" = None) as Hnone
    by (vm_compute; reflexivity).
  assert ("fasttext" ∈ Backend.optional_backends) as Hin
    by (apply (bool_decide_unpack _); vm_compute; exact I).
  assert (∃ why, Backend.core_installation "fasttext"
                 = Raise (ImportError why)) as Hfail
    by (eexists; vm_compute; reflexivity).
  split.
  - split; [exact Hnone|].
    exact (proj1 (proj1 (get_backend_errors Backend.core_installation)
                    "word2vec" Hnone)).
  - split; [exact Hin|]. split; [exact Hfail|].
    destruct (proj2 (proj2 (proj2 (get_backend_errors Backend.core_installation)
                              "fasttext" Hin)) Hfail)
      as (what & Heq & _).
    exists what. exact Heq.
Defined.

(** The registry on an installation without optional dependencies. *)
Example get_backend_fasttext_unavailable :
  Backend.get_backend Backend.core_installation "fasttext"
  = Raise (ValueError "fastText not available, cannot use fasttext backend").
Proof. vm_compute. reflexivity. Qed.

Example get_backend_nn_ensemble_unavailable :
  Backend.get_backend Backend.core_installation "nn_ensemble"
  = Raise (ValueError
             "Keras and TensorFlow not available, cannot use nn_ensemble backend").
Proof. vm_compute. reflexivity. Qed.

Example get_backend_dummy :
  Backend.get_backend Backend.core_installation "dummy"
  = Ok Backend.DummyBackend.
Proof. vm_compute. reflexivity. Qed.

Example get_backend_unknown_id :
  Backend.get_backend Backend.core_installation "word2vec"
  = Raise (ValueError "No such backend type word2vec").
Proof. vm_compute. reflexivity. Qed.

(** * Further properties of the metric library *)

(** ** The counts as set operations *)

Section CountsAlgebra.

Lemma sum_pairs_swap (g g' : list string → list string → nat)
    (l k : list (list string)) :
  (∀ a b, g a b = g' b a) → sum_pairs g l k = sum_pairs g' k l.
Proof.
  intros Hg. revert k.
  induction l as [|a l IH]; intros [|b k]; simpl; try done.
  by rewrite Hg, IH.
Qed.

Lemma same_labels_set (a b : list string) :
  same_labels a b → (list_to_set a : gset string) = list_to_set b.
Proof.
  intros H. apply set_eq. intros x. rewrite !elem_of_list_to_set. apply H.
Qed.

Lemma same_labels_intro (a b : list string) :
  Forall (λ x, x ∈ b) a → Forall (λ x, x ∈ a) b → same_labels a b.
Proof.
  rewrite !Forall_forall. intros Hab Hba x. split; [apply Hab | apply Hba].
Qed.

Lemma sum_pairs_same_labels (g : list string → list string → nat)
    (l l' k k' : list (list string)) :
  (∀ a a' b b', same_labels a a' → same_labels b b' → g a b = g a' b') →
  Forall2 same_labels l l' → Forall2 same_labels k k' →
  sum_pairs g l k = sum_pairs g l' k'.
Proof.
  intros Hg Hl. revert k k'.
  induction Hl as [|a a' l l' Ha _ IH]; intros k k' Hk.
  - by destruct Hk.
  - destruct Hk as [|b b' k k' Hb Hk]; [done|].
    simpl. by rewrite (Hg a a' b b'), (IH k k').
Qed.

End CountsAlgebra.

(** Exchanging the roles of the predictions and the gold standard keeps the
    true positives and exchanges the false positives with the false
    negatives. *)
Theorem counts_exchange (selected relevant : list (list string)) :
  true_positives selected relevant = true_positives relevant selected
  ∧ false_positives selected relevant = false_negatives relevant selected
  ∧ false_negatives selected relevant = false_positives relevant selected.
Proof.
  rewrite !true_positives_sum, !false_positives_sum, !false_negatives_sum.
  repeat split; apply sum_pairs_swap; intros a b; try done.
  unfold tp_doc. by rewrite (comm_L (∩)).
Qed.

(** The counts see each document as a set: reordering or repeating the
    labels of any document, on either side, changes none of them. *)
Theorem counts_ignore_order_and_repetition
    (selected selected' relevant relevant' : list (list string)) :
  Forall2 same_labels selected selected' →
  Forall2 same_labels relevant relevant' →
  true_positives selected relevant = true_positives selected' relevant'
  ∧ false_positives selected relevant = false_positives selected' relevant'
  ∧ false_negatives selected relevant = false_negatives selected' relevant'.
Proof.
  intros Hs Hr.
  rewrite !true_positives_sum, !false_positives_sum, !false_negatives_sum.
  repeat split; apply sum_pairs_same_labels; try done;
    intros a a' b b' Ha Hb; unfold tp_doc, fp_doc, fn_doc;
    by rewrite (same_labels_set a a' Ha), (same_labels_set b b' Hb).
Qed.

Lemma counts_ignore_order_and_repetition_witness :
  Forall2 same_labels [["x"; "y"; "x"]] [["y"; "x"]]
  ∧ Forall2 same_labels [["z"; "x"]] [["x"; "z"; "z"]]
  ∧ true_positives [["x"; "y"; "x"]] [["z"; "x"]]
    = true_positives [["y"; "x"]] [["x"; "z"; "z"]].
Proof.
  assert (Forall2 same_labels [["x"; "y"; "x"]] [["y"; "x"]]) as H1.
  { constructor; [|constructor].
    apply same_labels_intro; apply (bool_decide_unpack _); vm_compute;
      exact I. }
  assert (Forall2 same_labels [["z"; "x"]] [["x"; "z"; "z"]]) as H2.
  { constructor; [|constructor].
    apply same_labels_intro; apply (bool_decide_unpack _); vm_compute;
      exact I. }
  split; [exact H1|]. split; [exact H2|].
  exact (proj1 (counts_ignore_order_and_repetition _ _ _ _ H1 H2)).
Defined.

(** ** The gain: range, zero, growth with the bound *)

Section GainFacts.

Lemma slice_to_subseteq {A} (k : Z) (l : list A) : slice_to k l ⊆ l.
Proof. unfold slice_to. destruct (0 <=? k)%Z; apply subseteq_take. Qed.

Lemma gain_from_nonneg (relevant items : list string) (i : nat) :
  (1 ≤ i)%nat → 0 <= gain_from relevant i items.
Proof.
  revert i. induction items as [|x items IH]; intros i Hi.
  - rewrite gain_from_nil. lra.
  - rewrite gain_from_cons. specialize (IH (S i) ltac:(lia)).
    pose proof (weight_pos i Hi). case_bool_decide; lra.
Qed.

Lemma gain_from_zero (relevant items : list string) (i : nat) :
  (1 ≤ i)%nat →
  gain_from relevant i items = 0 ↔ Forall (λ x, x ∉ relevant) items.
Proof.
  revert i. induction items as [|x items IH]; intros i Hi.
  - rewrite gain_from_nil. split; [constructor | done].
  - rewrite gain_from_cons, Forall_cons.
    pose proof (gain_from_nonneg relevant items (S i) ltac:(lia)).
    pose proof (weight_pos i Hi). specialize (IH (S i) ltac:(lia)).
    case_bool_decide as Hx.
    + split; [lra | intros [? _]; done].
    + rewrite <- IH. split; [intros; split; [done | lra] | intros [_ ?]; lra].
Qed.


Lemma dcg_self (selected : list string) (k : Z) :
  dcg selected selected k = ideal_from 1 (length (slice_to k selected)).
Proof.
  destruct selected as [|s selected].
  - rewrite dcg_empty_selected. unfold slice_to.
    destruct (0 <=? k)%Z; by rewrite take_nil.
  - rewrite dcg_gain by done.
    apply gain_from_all_relevant, slice_to_subseteq.
Qed.

Lemma dcg_ge_0 (selected relevant : list string) (k : Z) :
  0 <= dcg selected relevant k.
Proof.
  destruct selected as [|s selected]; [rewrite dcg_empty_selected; lra|].
  destruct relevant as [|r relevant]; [rewrite dcg_empty_relevant; lra|].
  rewrite dcg_gain by done. by apply gain_from_nonneg.
Qed.

Lemma ndcg_doc_ge_0 (k : Z) (ssubj rsubj : list string) :
  0 <= ndcg_doc k ssubj rsubj.
Proof.
  unfold ndcg_doc. destruct (Req_dec_T _ _) as [|Hne]; [lra|].
  pose proof (dcg_ge_0 ssubj rsubj k). pose proof (dcg_ge_0 rsubj rsubj k).
  apply Rmult_le_pos; [done|]. left. apply Rinv_0_lt_compat. lra.
Qed.

Lemma np_sum_nonneg (xs : list R) : Forall (λ x, 0 <= x) xs → 0 <= np_sum xs.
Proof. induction 1 as [|x xs Hx _ IH]; simpl; lra. Qed.

Lemma np_sum_replicate (n : nat) (x : R) :
  np_sum (replicate n x) = INR n * x.
Proof.
  induction n as [|n IH]; simpl; [rewrite INR_0; lra|].
  rewrite IH, S_INR. lra.
Qed.

End GainFacts.

(** The gain is never negative, and a ranking gains against no gold
    standard more than against itself; this holds for every bound, also a
    negative one. *)
Theorem dcg_range (selected relevant : list string) (k : Z) :
  0 <= dcg selected relevant k
  ∧ dcg selected relevant k <= dcg selected selected k.
Proof.
  split; [apply dcg_ge_0|]. rewrite dcg_self.
  destruct selected as [|s selected].
  { rewrite dcg_empty_selected. by apply ideal_from_nonneg. }
  destruct relevant as [|r relevant].
  { rewrite dcg_empty_relevant. by apply ideal_from_nonneg. }
  rewrite dcg_gain by done.
  eapply Rle_trans; [by apply gain_from_le_ideal|].
  apply ideal_from_mono; [done | apply length_filter].
Qed.

(** The gain is zero exactly when none of the labels kept by the bound is
    relevant (in particular for an empty side or a bound of 0). *)
Theorem dcg_zero_iff_no_hit (selected relevant : list string) (k : Z) :
  dcg selected relevant k = 0
  ↔ ∀ x, x ∈ slice_to k selected → x ∉ relevant.
Proof.
  destruct selected as [|s selected].
  { rewrite dcg_empty_selected. split; [|done].
    intros _ x Hx. apply slice_to_subseteq in Hx. by apply elem_of_nil in Hx. }
  destruct relevant as [|r relevant].
  { rewrite dcg_empty_relevant. split; [|done].
    intros _ x _. apply not_elem_of_nil. }
  rewrite dcg_gain by done. rewrite gain_from_zero by done.
  apply Forall_forall.
Qed.



(** ** The normalized gain: errors, range, perfect predictions *)

(** [normalized_dcg] raises exactly when one side has no document, and then
    it is the [StatisticsError] of the mean; a score it returns is never
    negative. *)
Theorem normalized_dcg_outcome (selected relevant : list (list string))
    (k : Z) :
  (∀ e : exn,
     normalized_dcg selected relevant k = Raise e
     ↔ (selected = [] ∨ relevant = [])
       ∧ e = StatisticsError "mean requires at least one data point")
  ∧ (∀ x : R, normalized_dcg selected relevant k = Ok x → 0 <= x).
Proof.
  rewrite normalized_dcg_unfold. split.
  - intros e. destruct selected as [|s selected].
    { simpl. split; [intros [= <-]; by split; [left|] | by intros [_ ->]]. }
    destruct relevant as [|r relevant].
    { simpl. split; [intros [= <-]; by split; [right|] | by intros [_ ->]]. }
    simpl. split; [done | by intros [[|] _]].
  - intros x Hx.
    assert (Forall (λ y, 0 <= y) (zip_with (ndcg_doc k) selected relevant))
      as Hall.
    { clear Hx. revert relevant.
      induction selected as [|s selected IH]; intros [|r relevant]; simpl;
        try by constructor.
      constructor; [apply ndcg_doc_ge_0 | apply IH]. }
    destruct (zip_with (ndcg_doc k) selected relevant) as [|y ys] eqn:Hz;
      [done|].
    injection Hx as <-.
    apply Rmult_le_pos; [by apply (np_sum_nonneg (y :: ys))|].
    left. apply Rinv_0_lt_compat, (lt_INR 0). simpl. lia.
Qed.

Lemma normalized_dcg_outcome_witness :
  normalized_dcg [] [["A"]] 5
  = Raise (StatisticsError "mean requires at least one data point")
  ∧ ([] = ([] : list (list string)) ∨ [["A"]] = [])
  ∧ StatisticsError "mean requires at least one data point"
    = StatisticsError "mean requires at least one data point".
Proof.
  split; [reflexivity|].
  apply (proj1 (proj1 (normalized_dcg_outcome [] [["A"]] 5) _)).
  reflexivity.
Defined.

(** A batch predicted perfectly (every predicted list is its gold list)
    scores 1, provided there is a document, no document is empty and the
    bound is at least 1. *)
Theorem normalized_dcg_perfect (docs : list (list string)) (k : Z) :
  docs ≠ [] → Forall (λ d, d ≠ []) docs → (1 ≤ k)%Z →
  normalized_dcg docs docs k = Ok 1.
Proof.
  intros Hne Hdocs Hk. rewrite normalized_dcg_unfold.
  assert (zip_with (ndcg_doc k) docs docs = replicate (length docs) 1) as ->.
  { clear Hne. induction Hdocs as [|d docs Hd _ IH]; [done|].
    simpl. rewrite IH. f_equal. unfold ndcg_doc.
    destruct (Req_dec_T _ _) as [Hz | Hnz]; [|by field].
    exfalso. rewrite dcg_self, slice_to_nonneg in Hz by lia.
    destruct d as [|x d]; [done|].
    destruct (Z.to_nat k) as [|n] eqn:Hn; [lia|]. simpl in Hz.
    pose proof (weight_pos 1 ltac:(lia)).
    pose proof (ideal_from_nonneg 2 (length (take n d)) ltac:(lia)). lra. }
  destruct docs as [|d docs]; [done|].
  unfold mean. simpl replicate. f_equal.
  change (1 :: replicate (length docs) 1)
    with (replicate (S (length docs)) 1).
  rewrite np_sum_replicate, length_replicate.
  assert (0 < INR (S (length docs))) by (apply (lt_INR 0); lia).
  field. lra.
Qed.

Lemma normalized_dcg_perfect_witness :
  [["x"; "z"]; ["z"]] ≠ []
  ∧ Forall (λ d : list string, d ≠ []) [["x"; "z"]; ["z"]]
  ∧ (1 ≤ 5)%Z
  ∧ normalized_dcg [["x"; "z"]; ["z"]] [["x"; "z"]; ["z"]] 5 = Ok 1.
Proof.
  assert (Forall (λ d : list string, d ≠ []) [["x"; "z"]; ["z"]]) as H
    by (repeat constructor; discriminate).
  split; [discriminate|]. split; [exact H|]. split; [lia|].
  apply normalized_dcg_perfect; [discriminate | exact H | lia].
Defined.

(** ** Precision, recall and F-measure: bounds and symmetries *)

Section ScoreFacts.

Lemma elem_of_mlb_fit (y : list (list string)) (x : string) :
  x ∈ mlb_fit y ↔ x ∈ mjoin y.
Proof.
  unfold mlb_fit, sorted_strings.
  by rewrite merge_sort_Permutation, elem_of_elements, elem_of_list_to_set.
Qed.

Lemma mlb_fit_same_labels (y y' : list (list string)) :
  same_labels (mjoin y) (mjoin y') → mlb_fit y = mlb_fit y'.
Proof.
  intros H. unfold mlb_fit. do 2 f_equal. apply set_eq. intros x.
  rewrite !elem_of_list_to_set. apply H.
Qed.

Lemma count_true_cons (b : bool) (row : list bool) :
  count_true (b :: row) = ((if b then 1 else 0) + count_true row)%nat.
Proof. unfold count_true. rewrite filter_cons. by destruct b. Qed.

Lemma count_true_and_le (t p : list bool) :
  (count_true (zip_with andb t p) ≤ count_true t)%nat
  ∧ (count_true (zip_with andb t p) ≤ count_true p)%nat.
Proof.
  revert p. induction t as [|a t IH]; intros [|b p]; simpl;
    rewrite ?count_true_cons; try (split; unfold count_true; simpl; lia).
  destruct (IH p). destruct a, b; simpl; lia.
Qed.

Lemma zip_with_andb_comm (t p : list bool) :
  zip_with andb t p = zip_with andb p t.
Proof.
  revert p. induction t as [|a t IH]; intros [|b p]; simpl; try done.
  by rewrite IH, andb_comm.
Qed.

Lemma zip_with_andb_diag (p : list bool) : zip_with andb p p = p.
Proof. induction p as [|[] p IH]; simpl; by rewrite ?IH. Qed.

Lemma ratio_range (num den : nat) :
  (num ≤ den)%nat → 0 <= ratio num den <= 1.
Proof.
  intros Hle. unfold ratio. case_decide as Hd; [lra|].
  assert (0 < INR den) by (apply (lt_INR 0); lia).
  pose proof (pos_INR num). pose proof (le_INR _ _ Hle).
  split.
  - apply Rmult_le_pos; [done|]. left. by apply Rinv_0_lt_compat.
  - apply (Rmult_le_reg_r (INR den)); [done|].
    unfold Rdiv. rewrite Rmult_assoc, Rinv_l by lra. lra.
Qed.

Lemma ratio_diag (n : nat) : n ≠ 0%nat → ratio n n = 1.
Proof.
  intros Hn. rewrite ratio_pos by done. field. by apply not_0_INR.
Qed.

Lemma sample_scores_range (t p : list bool) :
  0 <= sample_precision t p <= 1
  ∧ 0 <= sample_recall t p <= 1
  ∧ 0 <= sample_f1 t p <= 1.
Proof.
  destruct (count_true_and_le t p).
  unfold sample_precision, sample_recall, sample_f1.
  repeat split; apply ratio_range; lia.
Qed.

Lemma np_sum_range (xs : list R) :
  Forall (λ x, 0 <= x <= 1) xs → 0 <= np_sum xs <= INR (length xs).
Proof.
  induction 1 as [|x xs Hx _ IH]; simpl length; simpl np_sum.
  - rewrite INR_0. lra.
  - rewrite S_INR. lra.
Qed.

Lemma samples_average_range f (y_true y_pred : list (list bool)) :
  (∀ t p, 0 <= f t p <= 1) → y_true ≠ [] → y_pred ≠ [] →
  0 <= samples_average f y_true y_pred <= 1.
Proof.
  intros Hf Ht Hp. unfold samples_average.
  set (scores := zip_with f y_true y_pred).
  assert (Forall (λ x, 0 <= x <= 1) scores) as Hall.
  { subst scores. clear Ht Hp. revert y_pred.
    induction y_true as [|t y_true IH]; intros [|p y_pred]; simpl;
      by constructor. }
  assert (0 < INR (length scores)) as Hlen.
  { apply (lt_INR 0). subst scores.
    destruct y_true; [done|]. destruct y_pred; [done|]. simpl. lia. }
  pose proof (np_sum_range scores Hall). split.
  - apply Rmult_le_pos; [lra|]. left. by apply Rinv_0_lt_compat.
  - apply (Rmult_le_reg_r (INR (length scores))); [done|].
    unfold Rdiv. rewrite Rmult_assoc, Rinv_l by lra. lra.
Qed.

Lemma mlb_transform_nonempty classes (y : list (list string)) :
  y ≠ [] → mlb_transform classes y ≠ [].
Proof. by destruct y. Qed.

Lemma slice_to_ge {A} (k : Z) (l : list A) :
  (Z.of_nat (length l) ≤ k)%Z → slice_to k l = l.
Proof.
  intros H. rewrite slice_to_nonneg by lia. apply take_ge. lia.
Qed.

End ScoreFacts.

(** On a batch with at least one document on each side, precision (with or
    without a bound), recall and F-measure lie between 0 and 1. *)
Theorem scores_in_unit_interval (selected relevant : list (list string))
    (at_k : option Z) :
  selected ≠ [] → relevant ≠ [] →
  0 <= precision selected relevant at_k <= 1
  ∧ 0 <= recall selected relevant <= 1
  ∧ 0 <= f_measure selected relevant <= 1.
Proof.
  intros Hs Hr.
  unfold precision, recall, f_measure, sklearn_metric_score,
    precision_score, recall_score, f1_score.
  repeat split; apply samples_average_range;
    try (intros t p; apply sample_scores_range);
    try apply mlb_transform_nonempty; try done.
  all: destruct at_k; [by destruct selected | done].
Qed.

Lemma scores_in_unit_interval_witness :
  [["A"; "B"; "C"]] ≠ [] ∧ [["A"; "C"]] ≠ []
  ∧ 0 <= precision [["A"; "B"; "C"]] [["A"; "C"]] (Some 3%Z) <= 1.
Proof.
  split; [discriminate|]. split; [discriminate|].
  apply (scores_in_unit_interval [["A"; "B"; "C"]] [["A"; "C"]] (Some 3%Z));
    discriminate.
Defined.

(** A bound that no predicted list exceeds leaves the precision as it is
    without a bound. *)
Theorem precision_bound_beyond_lists (selected relevant : list (list string))
    (k : Z) :
  Forall (λ subjs, (Z.of_nat (length subjs) ≤ k)%Z) selected →
  precision selected relevant (Some k) = precision selected relevant None.
Proof.
  intros Hall.
  assert ((λ subjs, slice_to k subjs) <$> selected = selected) as Hcut.
  { induction Hall as [|subjs selected Hk _ IH]; [done|].
    rewrite fmap_cons, IH. f_equal. by apply slice_to_ge. }
  unfold precision. by rewrite Hcut.
Qed.

Lemma precision_bound_beyond_lists_witness :
  Forall (λ subjs : list string, (Z.of_nat (length subjs) ≤ 5)%Z)
    [["A"; "B"; "C"]]
  ∧ precision [["A"; "B"; "C"]] [["A"; "C"]] (Some 5%Z)
    = precision [["A"; "B"; "C"]] [["A"; "C"]] None.
Proof.
  assert (Forall (λ subjs : list string, (Z.of_nat (length subjs) ≤ 5)%Z)
            [["A"; "B"; "C"]]) as H by (repeat constructor; simpl; lia).
  split; [exact H|]. by apply precision_bound_beyond_lists.
Defined.

(** Recall is precision with the roles of the predictions and the gold
    standard exchanged, and F-measure is symmetric in them. *)
Theorem recall_is_exchanged_precision (selected relevant : list (list string)) :
  recall selected relevant = precision relevant selected None
  ∧ f_measure selected relevant = f_measure relevant selected.
Proof.
  assert (mlb_fit (relevant ++ selected) = mlb_fit (selected ++ relevant))
    as Hfit.
  { apply mlb_fit_same_labels. intros x.
    rewrite !list_elem_of_join. split; intros (l & Hx & Hl); exists l;
      (split; [done|]); rewrite elem_of_app in Hl |- *; tauto. }
  unfold recall, precision, f_measure, sklearn_metric_score,
    recall_score, precision_score, f1_score, samples_average.
  rewrite Hfit.
  set (ys := mlb_transform _ selected). set (yr := mlb_transform _ relevant).
  split.
  - rewrite <- (zip_with_flip sample_precision ys yr).
    assert (zip_with sample_recall yr ys
            = zip_with (flip sample_precision) yr ys) as ->; [|done].
    apply zip_with_ext; [|done..]. intros t p. unfold flip,
      sample_recall, sample_precision. by rewrite zip_with_andb_comm.
  - rewrite <- (zip_with_flip sample_f1 ys yr).
    assert (zip_with sample_f1 yr ys = zip_with (flip sample_f1) yr ys)
      as ->; [|done].
    apply zip_with_ext; [|done..]. intros t p. unfold flip, sample_f1.
    rewrite zip_with_andb_comm. f_equal. lia.
Qed.

Section PerfectScores.

Lemma mlb_transform_same_labels classes (y y' : list (list string)) :
  Forall2 same_labels y y' → mlb_transform classes y = mlb_transform classes y'.
Proof.
  induction 1 as [|a b y y' Hab _ IH]; [done|].
  unfold mlb_transform in *. rewrite !fmap_cons, IH. f_equal.
  apply list_fmap_ext. intros _ c _. apply bool_decide_ext, Hab.
Qed.

Lemma count_true_row_pos classes (doc : list string) (x : string) :
  x ∈ classes → x ∈ doc →
  (1 ≤ count_true ((λ c, bool_decide (c ∈ doc)) <$> classes))%nat.
Proof.
  intros Hc Hd. induction Hc as [x classes | x c classes _ IH];
    rewrite fmap_cons, count_true_cons.
  - rewrite bool_decide_eq_true_2 by done. lia.
  - specialize (IH Hd). destruct (bool_decide (c ∈ doc)); lia.
Qed.

Lemma rows_pos classes (y : list (list string)) :
  Forall (λ doc, doc ≠ []) y →
  (∀ x, x ∈ mjoin y → x ∈ classes) →
  Forall (λ row, (1 ≤ count_true row)%nat) (mlb_transform classes y).
Proof.
  intros Hy Hsub. unfold mlb_transform. apply Forall_fmap, Forall_forall.
  intros doc Hdoc. simpl.
  rewrite Forall_forall in Hy. specialize (Hy doc Hdoc).
  destruct doc as [|x doc']; [done|].
  apply (count_true_row_pos classes _ x); [|by left].
  apply Hsub, list_elem_of_join. exists (x :: doc'). split; [by left | done].
Qed.

Lemma samples_average_diag f (rows : list (list bool)) :
  rows ≠ [] → Forall (λ row, f row row = 1) rows →
  samples_average f rows rows = 1.
Proof.
  intros Hne Hall. unfold samples_average.
  assert (zip_with f rows rows = replicate (length rows) 1) as ->.
  { clear Hne. induction Hall as [|row rows Hrow _ IH]; [done|].
    simpl. by rewrite Hrow, IH. }
  rewrite np_sum_replicate, length_replicate.
  assert (0 < INR (length rows)).
  { apply (lt_INR 0). destruct rows; [done | simpl; lia]. }
  field. lra.
Qed.

End PerfectScores.

(** When every predicted list holds exactly the labels of its gold list, in
    any order, and no document is empty, precision, recall and F-measure of
    the batch are 1. *)
Theorem perfect_prediction_scores (selected relevant : list (list string)) :
  relevant ≠ [] → Forall (λ doc, doc ≠ []) relevant →
  Forall2 same_labels selected relevant →
  precision selected relevant None = 1
  ∧ recall selected relevant = 1
  ∧ f_measure selected relevant = 1.
Proof.
  intros Hne Hdocs Hsame.
  unfold precision, recall, f_measure, sklearn_metric_score.
  rewrite (mlb_transform_same_labels _ selected relevant Hsame).
  set (classes := mlb_fit (relevant ++ selected)).
  assert (Forall (λ row, (1 ≤ count_true row)%nat)
            (mlb_transform classes relevant)) as Hrows.
  { apply rows_pos; [done|]. intros x Hx. subst classes.
    rewrite elem_of_mlb_fit, join_app, elem_of_app. by left. }
  assert (mlb_transform classes relevant ≠ []) as Hne'
    by (by apply mlb_transform_nonempty).
  unfold precision_score, recall_score, f1_score.
  repeat split; apply samples_average_diag; try done;
    (eapply Forall_impl; [exact Hrows|]); intros row Hrow; simpl in Hrow;
    cbv beta; unfold sample_precision, sample_recall, sample_f1;
    rewrite zip_with_andb_diag.
  - apply ratio_diag. lia.
  - apply ratio_diag. lia.
  - replace (2 * count_true row)%nat with (count_true row + count_true row)%nat
      by lia.
    apply ratio_diag. lia.
Qed.

Lemma perfect_prediction_scores_witness :
  [["x"; "z"]; ["z"]] ≠ []
  ∧ Forall (λ doc : list string, doc ≠ []) [["x"; "z"]; ["z"]]
  ∧ Forall2 same_labels [["z"; "x"]; ["z"]] [["x"; "z"]; ["z"]]
  ∧ precision [["z"; "x"]; ["z"]] [["x"; "z"]; ["z"]] None = 1.
Proof.
  assert (Forall (λ doc : list string, doc ≠ []) [["x"; "z"]; ["z"]]) as H1
    by (repeat constructor; discriminate).
  assert (Forall2 same_labels [["z"; "x"]; ["z"]] [["x"; "z"]; ["z"]]) as H2.
  { constructor; [|constructor; [|constructor]];
      apply same_labels_intro; apply (bool_decide_unpack _); vm_compute;
        exact I. }
  split; [discriminate|]. split; [exact H1|]. split; [exact H2|].
  apply (perfect_prediction_scores [["z"; "x"]; ["z"]] [["x"; "z"]; ["z"]]);
    [discriminate | exact H1 | exact H2].
Defined.

(** * Further properties of the report *)

Section Permuted.










End Permuted.



Section ReportFacts.

Lemma od_get_counts (v1 v2 v3 v4 v5 v6 v7 v8 v9 v10 v11 : score) :
  let rep :=
    [ ("Precision", v1); ("Recall", v2); ("F-measure", v3);
      ("NDCG@5", v4); ("NDCG@10", v5); ("Precision@1", v6);
      ("Precision@3", v7); ("Precision@5", v8); ("True positives", v9);
      ("False positives", v10); ("False negatives", v11) ] in
  od_get "True positives" rep = Some v9
  ∧ od_get "False positives" rep = Some v10
  ∧ od_get "False negatives" rep = Some v11.
Proof. vm_compute. done. Qed.

Lemma sum_pairs_totals (l : list (list string * list string)) :
  (sum_pairs tp_doc l.*1 l.*2 + sum_pairs fn_doc l.*1 l.*2)%Z
  = total_size l.*2
  ∧ (sum_pairs tp_doc l.*1 l.*2 + sum_pairs fp_doc l.*1 l.*2)%Z
    = total_size l.*1
  ∧ (0 ≤ sum_pairs tp_doc l.*1 l.*2)%Z.
Proof.
  induction l as [|[s r] l (IH1 & IH2 & IH3)]; [done|].
  rewrite !fmap_cons. cbn [fst snd sum_pairs total_size foldr].
  fold (total_size l.*1). fold (total_size l.*2).
  pose proof (tp_fn_doc s r). pose proof (tp_fp_doc s r). lia.
Qed.

End ReportFacts.

(** In the report of every non-empty batch the three counts are
    consistent: the true positives are not negative, with the false
    negatives they count the gold labels, and with the false positives the
    predicted labels (each document as a set). *)
Theorem report_counts_consistent
    (samples : list (list string * list string)) :
  samples ≠ [] →
  ∃ (rep : report) (tp fp fn : Z),
    evaluate samples = Ok rep
    ∧ od_get "True positives" rep = Some (SInt tp)
    ∧ od_get "False positives" rep = Some (SInt fp)
    ∧ od_get "False negatives" rep = Some (SInt fn)
    ∧ (0 ≤ tp)%Z
    ∧ (tp + fn)%Z = total_size samples.*2
    ∧ (tp + fp)%Z = total_size samples.*1.
Proof.
  intros Hne. eexists. exists (true_positives samples.*1 samples.*2).
  exists (false_positives samples.*1 samples.*2).
  exists (false_negatives samples.*1 samples.*2).
  split; [by apply evaluate_nonempty|]. cbv zeta.
  destruct (od_get_counts
    (SFloat (precision samples.*1 samples.*2 None))
    (SFloat (recall samples.*1 samples.*2))
    (SFloat (f_measure samples.*1 samples.*2))
    (SFloat (np_sum (zip_with (ndcg_doc 5) samples.*1 samples.*2)
             / INR (length (zip_with (ndcg_doc 5) samples.*1 samples.*2))))
    (SFloat (np_sum (zip_with (ndcg_doc 10) samples.*1 samples.*2)
             / INR (length (zip_with (ndcg_doc 10) samples.*1 samples.*2))))
    (SFloat (precision samples.*1 samples.*2 (Some 1%Z)))
    (SFloat (precision samples.*1 samples.*2 (Some 3%Z)))
    (SFloat (precision samples.*1 samples.*2 (Some 5%Z)))
    (SInt (true_positives samples.*1 samples.*2))
    (SInt (false_positives samples.*1 samples.*2))
    (SInt (false_negatives samples.*1 samples.*2))) as (H1 & H2 & H3).
  split; [exact H1|]. split; [exact H2|]. split; [exact H3|].
  rewrite true_positives_sum, false_positives_sum, false_negatives_sum.
  destruct (sum_pairs_totals samples) as (Ht & Hs & Hp). done.
Qed.

Lemma report_counts_consistent_witness :
  [(["x"; "y"], ["x"; "z"]); (["z"], ["z"])] ≠ []
  ∧ ∃ (rep : report) (tp fp fn : Z),
      evaluate [(["x"; "y"], ["x"; "z"]); (["z"], ["z"])] = Ok rep
      ∧ od_get "True positives" rep = Some (SInt tp)
      ∧ od_get "False positives" rep = Some (SInt fp)
      ∧ od_get "False negatives" rep = Some (SInt fn)
      ∧ (0 ≤ tp)%Z
      ∧ (tp + fn)%Z
        = total_size [(["x"; "y"], ["x"; "z"]); (["z"], ["z"])].*2
      ∧ (tp + fp)%Z
        = total_size [(["x"; "y"], ["x"; "z"]); (["z"], ["z"])].*1.
Proof.
  split; [discriminate|].
  apply (report_counts_consistent
           [(["x"; "y"], ["x"; "z"]); (["z"], ["z"])]).
  discriminate.
Defined.

(** * Further properties of the backend registry *)

Section RegistryFacts.

Import Backend.

(** The entries of the registry. *)
Lemma registry_entries (backend_id : string)
    (fn : installation → result AnnifBackend) :
  _backend_fns !! backend_id = Some fn →
  (backend_id, fn) ∈
    [ ("dummy", _dummy); ("ensemble", _ensemble); ("fasttext", _fasttext);
      ("http", _http); ("mllm", _mllm); ("nn_ensemble", _nn_ensemble);
      ("omikuji", _omikuji); ("pav", _pav); ("stwfsa", _stwfsa);
      ("svc", _svc); ("tfidf", _tfidf); ("yake", _yake);
      ("xlmroberta", _xlmroberta); ("minilmv2", _minilmv2);
      ("ehribert", _ehribert); ("mdeberta", _mdeberta);
      ("mistral", _mistral) ].
Proof. unfold _backend_fns. apply elem_of_list_to_map_2. Qed.

End RegistryFacts.

(** Splits a registry entry into the seventeen loaders. *)
Ltac registry_cases H :=
  apply registry_entries in H;
  repeat (apply elem_of_cons in H as [H | H];
          [injection H as -> -> |]);
  [..|by apply elem_of_nil in H].

Ltac unfold_loaders :=
  unfold Backend._dummy, Backend._ensemble, Backend._fasttext, Backend._http,
    Backend._mllm, Backend._nn_ensemble, Backend._omikuji, Backend._pav,
    Backend._stwfsa, Backend._svc, Backend._tfidf, Backend._yake,
    Backend._xlmroberta, Backend._minilmv2, Backend._ehribert,
    Backend._mdeberta, Backend._mistral in *.

(** The lookup is lazy: [get_backend] imports the module of the requested
    backend and no other, so its outcome depends on the installation only
    through that one import. *)
Theorem get_backend_imports_only_requested
    (imp imp' : Backend.installation) (backend_id : string) :
  imp backend_id = imp' backend_id →
  Backend.get_backend imp backend_id = Backend.get_backend imp' backend_id.
Proof.
  intros Heq. unfold Backend.get_backend.
  destruct (Backend._backend_fns !! backend_id) as [fn|] eqn:Hfn; [|done].
  registry_cases Hfn; unfold_loaders; by rewrite Heq.
Qed.

Lemma get_backend_imports_only_requested_witness :
  Backend.core_installation "tfidf" = (λ _, Ok ()) "tfidf"
  ∧ Backend.get_backend Backend.core_installation "tfidf"
    = Backend.get_backend (λ _, Ok ()) "tfidf".
Proof.
  split; [vm_compute; reflexivity|].
  apply get_backend_imports_only_requested. vm_compute. reflexivity.
Defined.

(** A failed import reaches the caller unchanged, unless the backend is an
    optional one and the failure is an [ImportError]: the loaders of the
    core backends have no guard, and the guard of the optional ones catches
    nothing else. *)
Theorem get_backend_import_failure (imp : Backend.installation)
    (backend_id : string) (e : exn) :
  imp backend_id = Raise e →
  (backend_id ∈ core_backends →
   Backend.get_backend imp backend_id = Raise e)
  ∧ (backend_id ∈ Backend.optional_backends →
     (∀ name, e ≠ ImportError name) →
     Backend.get_backend imp backend_id = Raise e).
Proof.
  intros Himp. split.
  - intros Hin. unfold core_backends in Hin.
    repeat (apply elem_of_cons in Hin as [-> | Hin]);
      [..|by apply elem_of_nil in Hin].
    + run_loader Backend._dummy. unfold_loaders. by rewrite Himp.
    + run_loader Backend._ensemble. unfold_loaders. by rewrite Himp.
    + run_loader Backend._http. unfold_loaders. by rewrite Himp.
    + run_loader Backend._mllm. unfold_loaders. by rewrite Himp.
    + run_loader Backend._pav. unfold_loaders. by rewrite Himp.
    + run_loader Backend._svc. unfold_loaders. by rewrite Himp.
    + run_loader Backend._tfidf. unfold_loaders. by rewrite Himp.
  - intros Hin Hother. unfold Backend.optional_backends in Hin.
    assert (∀ (cls : Backend.AnnifBackend) (msg : string),
              Backend.except_ImportError
                (imp backend_id ;; mret cls) (Raise (ValueError msg))
              = Raise e) as Hguard.
    { intros cls msg. rewrite Himp. simpl.
      destruct e as [m | name | m]; try done. by destruct (Hother name). }
    repeat (apply elem_of_cons in Hin as [-> | Hin]);
      [..|by apply elem_of_nil in Hin].
    + run_loader Backend._fasttext. apply Hguard.
    + run_loader Backend._nn_ensemble. apply Hguard.
    + run_loader Backend._omikuji. apply Hguard.
    + run_loader Backend._stwfsa. apply Hguard.
    + run_loader Backend._yake. apply Hguard.
    + run_loader Backend._minilmv2. apply Hguard.
    + run_loader Backend._xlmroberta. apply Hguard.
    + run_loader Backend._mdeberta. apply Hguard.
    + run_loader Backend._ehribert. apply Hguard.
    + run_loader Backend._mistral. apply Hguard.
Qed.

Lemma get_backend_import_failure_witness :
  broken_installation "tfidf" = Raise (ImportError "No module named tfidf")
  ∧ "tfidf" ∈ core_backends
  ∧ Backend.get_backend broken_installation "tfidf"
    = Raise (ImportError "No module named tfidf").
Proof.
  assert ("tfidf" ∈ core_backends) as Hin
    by (apply (bool_decide_unpack _); vm_compute; exact I).
  split; [reflexivity|]. split; [exact Hin|].
  apply (proj1 (get_backend_import_failure broken_installation "tfidf"
                  (ImportError "No module named tfidf") eq_refl)).
  exact Hin.
Defined.

(** [get_backend] returns a class only for a registered identifier whose
    module imported; for such an identifier it does return one; and the
    class determines the identifier: no two identifiers share a backend. *)
Theorem get_backend_success (imp : Backend.installation)
    (backend_id : string) :
  (∀ cls, Backend.get_backend imp backend_id = Ok cls →
          is_Some (Backend._backend_fns !! backend_id)
          ∧ imp backend_id = Ok ()
          ∧ ∀ imp' other_id,
              Backend.get_backend imp' other_id = Ok cls →
              other_id = backend_id)
  ∧ (is_Some (Backend._backend_fns !! backend_id) →
     imp backend_id = Ok () →
     ∃ cls, Backend.get_backend imp backend_id = Ok cls).
Proof.
  assert (∀ imp0 id cls,
            Backend.get_backend imp0 id = Ok cls →
            is_Some (Backend._backend_fns !! id)
            ∧ imp0 id = Ok () ∧ id = backend_id_of cls) as Hok.
  { intros imp0 id cls. unfold Backend.get_backend.
    destruct (Backend._backend_fns !! id) as [fn|] eqn:Hfn; [|done].
    intros Hcls. split; [done|].
    registry_cases Hfn; unfold_loaders; unfold Backend.except_ImportError in *;
      match type of Hcls with
      | context [imp0 ?n] => destruct (imp0 n) as [[]|[]]
      end; simpl in Hcls; try discriminate;
      injection Hcls as <-; done. }
  split.
  - intros cls Hcls. destruct (Hok _ _ _ Hcls) as (Hreg & Himp & Hid).
    split; [done|]. split; [done|].
    intros imp' other_id Hother.
    destruct (Hok _ _ _ Hother) as (_ & _ & ->). done.
  - intros [fn Hfn] Himp. unfold Backend.get_backend. rewrite Hfn.
    registry_cases Hfn; unfold_loaders; rewrite Himp; simpl; eauto.
Qed.

Lemma get_backend_success_witness :
  is_Some (Backend._backend_fns !! "tfidf")
  ∧ Backend.core_installation "tfidf" = Ok ()
  ∧ ∃ cls, Backend.get_backend Backend.core_installation "tfidf" = Ok cls.
Proof.
  assert (is_Some (Backend._backend_fns !! "tfidf")) as Hreg
    by (eexists; vm_compute; reflexivity).
  assert (Backend.core_installation "tfidf" = Ok ()) as Himp
    by (vm_compute; reflexivity).
  split; [exact Hreg|]. split; [exact Himp|].
  exact (proj2 (get_backend_success Backend.core_installation "tfidf")
           Hreg Himp).
Defined.

(** * Batches put together, gold sets in another order *)

(** The counts are additive: the counts of two aligned batches put one
    after the other are the sums of their counts. *)
Theorem counts_additive
    (selected1 relevant1 selected2 relevant2 : list (list string)) :
  length selected1 = length relevant1 →
  true_positives (selected1 ++ selected2) (relevant1 ++ relevant2)
  = (true_positives selected1 relevant1
     + true_positives selected2 relevant2)%Z
  ∧ false_positives (selected1 ++ selected2) (relevant1 ++ relevant2)
    = (false_positives selected1 relevant1
       + false_positives selected2 relevant2)%Z
  ∧ false_negatives (selected1 ++ selected2) (relevant1 ++ relevant2)
    = (false_negatives selected1 relevant1
       + false_negatives selected2 relevant2)%Z.
Proof.
  intros Hlen.
  rewrite !true_positives_sum, !false_positives_sum, !false_negatives_sum.
  repeat split; by apply sum_pairs_app.
Qed.

Lemma counts_additive_witness :
  length [["x"; "y"]] = length [["x"; "z"]]
  ∧ true_positives ([["x"; "y"]] ++ [["z"]]) ([["x"; "z"]] ++ [["z"]])
    = (true_positives [["x"; "y"]] [["x"; "z"]]
       + true_positives [["z"]] [["z"]])%Z.
Proof.
  split; [reflexivity|].
  apply (counts_additive [["x"; "y"]] [["x"; "z"]] [["z"]] [["z"]]).
  reflexivity.
Defined.

Lemma dcg_zero_iff_no_hit_witness :
  (∀ x, x ∈ slice_to 3 ["b"; "c"] → x ∉ ["a"])
  ∧ dcg ["b"; "c"] ["a"] 3 = 0.
Proof.
  assert (∀ x, x ∈ slice_to 3 ["b"; "c"] → x ∉ ["a"]) as H.
  { apply Forall_forall. apply (bool_decide_unpack _). vm_compute. exact I. }
  split; [exact H|].
  apply (proj2 (dcg_zero_iff_no_hit ["b"; "c"] ["a"] 3)). exact H.
Defined.

Section GoldOrder.

Lemma gain_from_same_labels (relevant relevant' items : list string) (i : nat) :
  same_labels relevant relevant' →
  gain_from relevant i items = gain_from relevant' i items.
Proof.
  intros Hsame. revert i. induction items as [|x items IH]; intros i; [done|].
  rewrite !gain_from_cons, IH. f_equal.
  by rewrite (bool_decide_ext _ _ (Hsame x)).
Qed.

Lemma length_slice_to {A B} (k : Z) (l : list A) (l' : list B) :
  length l = length l' → length (slice_to k l) = length (slice_to k l').
Proof.
  intros Hlen. unfold slice_to.
  destruct (0 <=? k)%Z; rewrite !length_take; lia.
Qed.

Lemma ndcg_doc_Permutation (k : Z) (ssubj rsubj rsubj' : list string) :
  rsubj ≡ₚ rsubj' → ndcg_doc k ssubj rsubj = ndcg_doc k ssubj rsubj'.
Proof.
  intros Hp.
  assert (dcg rsubj rsubj k = dcg rsubj' rsubj' k) as Hmax.
  { rewrite !dcg_self. f_equal. apply length_slice_to.
    by apply Permutation_length. }
  assert (dcg ssubj rsubj k = dcg ssubj rsubj' k) as Hval.
  { destruct ssubj as [|s ssubj]; [by rewrite !dcg_empty_selected|].
    destruct rsubj as [|r rsubj].
    { by apply Permutation_nil_l in Hp as ->. }
    destruct rsubj' as [|r' rsubj'].
    { by apply Permutation_nil_r in Hp. }
    rewrite !dcg_gain by done. apply gain_from_same_labels.
    intros x. by rewrite Hp. }
  unfold ndcg_doc. by rewrite Hmax, Hval.
Qed.

End GoldOrder.

(** The normalized gain does not depend on the order in which a gold set
    lists its labels: reordering the labels of any gold document leaves
    the outcome of [normalized_dcg] unchanged, for every bound. *)
Theorem normalized_dcg_gold_order
    (selected relevant relevant' : list (list string)) (k : Z) :
  Forall2 Permutation relevant relevant' →
  normalized_dcg selected relevant k = normalized_dcg selected relevant' k.
Proof.
  intros Hp. rewrite !normalized_dcg_unfold. f_equal.
  revert selected. induction Hp as [|r r' relevant relevant' Hr _ IH];
    intros [|s selected]; try done.
  simpl. by rewrite IH, (ndcg_doc_Permutation k s r r' Hr).
Qed.

Lemma normalized_dcg_gold_order_witness :
  Forall2 Permutation [["x"; "z"]; ["z"]] [["z"; "x"]; ["z"]]
  ∧ normalized_dcg [["x"; "y"]; ["z"]] [["x"; "z"]; ["z"]] 5
    = normalized_dcg [["x"; "y"]; ["z"]] [["z"; "x"]; ["z"]] 5.
Proof.
  assert (Forall2 Permutation [["x"; "z"]; ["z"]] [["z"; "x"]; ["z"]]) as H.
  { constructor; [apply perm_swap|]. constructor; [reflexivity|constructor]. }
  split; [exact H|]. by apply normalized_dcg_gold_order.
Defined.
